(** * synthacc: the Syngine request builder and the recordings it returns

    A shallow embedding of [synthacc/io/syngine.py] and of the parts of
    the recordings, units and moment-tensor modules it relies on.

    Python values are embedded as follows.
    - [int] is [Z]; [float] is an IEEE 754 binary64 value, [spec_float]
      with precision 53 and maximal exponent 1024; the arithmetic on
      floats is the correctly rounded one of [SpecFloat].
    - [str] is [string]; [None]-able arguments are [option]s.
    - The arguments of the request builder have the types that its
      docstring gives them, so the type tests among its assertions
      ([is_number], [is_string], [type(mt) is MomentTensor]) hold by
      typing; the tests on values are kept as they are written.
    - The arguments are values: numbers, strings and [None] cannot be
      changed in Python either, and the moment tensor is only read, through
      its six components.
    - A statement that may raise is a [prog]: it returns, raises, or asks
      the outside world (an HTTP GET, the miniSEED reader) and goes on
      with the answer.
    - The text that [%f], [{:e}] and [str] print for a number is computed
      exactly from the value of the number. *)

From Stdlib Require Import ZArith String Ascii List Bool Lia DecimalString.
From Stdlib Require Import SpecFloat.
From Stdlib Require Import DecimalFacts DecimalPos Nnat.
Import ListNotations.
Open Scope string_scope.
Open Scope Z_scope.

(** ** Exceptions and programs *)

(** The exceptions a call can end with.  The first four are Python's own;
    the next six are the error kinds the specification lists; the last
    stands for whatever the HTTP client or the miniSEED reader raises. *)
Inductive exn : Type :=
| AssertionError
| KeyError (key : string)
| OverflowError
| ValueError
| UnsupportedUnitError
| IncompatibleUnitError
| InvalidComponentSetError
| InconsistentComponentsError
| InvalidAzimuthError
| InvalidGeophysicalInputError
| ExternalError (what : string).

Inductive result (A : Type) : Type :=
| Ok (a : A)
| Err (e : exn).

Arguments Ok {A} a.
Arguments Err {A} e.

(** One trace of an obspy stream: [trace.stats.delta] and [trace.data]. *)
Record Trace : Type := mkTrace {
  delta : spec_float;
  data : list spec_float
}.

Definition bytes : Type := list Byte.byte.
Definition Stream : Type := list Trace.

(** A program either ends ([Ret], [Raise]) or performs one of the two
    calls that leave the process: [requests.get(url).content] and
    [obspy.read(io.BytesIO(content), format='MSEED')]. *)
Inductive prog (A : Type) : Type :=
| Ret (a : A)
| Raise (e : exn)
| HttpGet (url : string) (k : result bytes -> prog A)
| ReadMseed (content : bytes) (k : result Stream -> prog A).

Arguments Ret {A} a.
Arguments Raise {A} e.
Arguments HttpGet {A} url k.
Arguments ReadMseed {A} content k.

Fixpoint bind {A B : Type} (p : prog A) (f : A -> prog B) : prog B :=
  match p with
  | Ret a => f a
  | Raise e => Raise e
  | HttpGet url k => HttpGet url (fun r => bind (k r) f)
  | ReadMseed c k => ReadMseed c (fun r => bind (k r) f)
  end.

Notation "x <- p ;; q" := (bind p (fun x => q))
  (at level 61, p at next level, right associativity).
Notation "p ;; q" := (bind p (fun _ => q))
  (at level 61, right associativity).

Definition of_result {A : Type} (r : result A) : prog A :=
  match r with
  | Ok a => Ret a
  | Err e => Raise e
  end.

Definition http_get (url : string) : prog bytes := HttpGet url of_result.
Definition read_mseed (content : bytes) : prog Stream := ReadMseed content of_result.

(** The outside world: what the server answers and what the reader parses. *)
Record world : Type := mkWorld {
  http : string -> result bytes;
  mseed : bytes -> result Stream
}.

Fixpoint run {A : Type} (w : world) (p : prog A) : result A :=
  match p with
  | Ret a => Ok a
  | Raise e => Err e
  | HttpGet url k => run w (k (http w url))
  | ReadMseed c k => run w (k (mseed w c))
  end.

(** The URLs that a program requests, in order, when it runs in [w]. *)
Fixpoint requests {A : Type} (w : world) (p : prog A) : list string :=
  match p with
  | Ret _ => []
  | Raise _ => []
  | HttpGet url k => url :: requests w (k (http w url))
  | ReadMseed c k => requests w (k (mseed w c))
  end.

(** A program that ends without asking the outside world anything. *)
Definition io_free {A : Type} (p : prog A) : bool :=
  match p with
  | Ret _ | Raise _ => true
  | HttpGet _ _ | ReadMseed _ _ => false
  end.

(** [for x in xs: f(x)], collecting the results. *)
Fixpoint mapM {A B : Type} (f : A -> prog B) (xs : list A) : prog (list B) :=
  match xs with
  | [] => Ret []
  | x :: xs' => y <- f x ;; ys <- mapM f xs' ;; Ret (y :: ys)
  end.

(** ** Strings *)

(** [s.replace(c, '')] for a one-character [c]. *)
Fixpoint remove_char (c : ascii) (s : string) : string :=
  match s with
  | EmptyString => EmptyString
  | String a s' =>
      if Ascii.eqb a c then remove_char c s' else String a (remove_char c s')
  end.

(** [c in s] for a character [c]. *)
Fixpoint has_char (c : ascii) (s : string) : bool :=
  match s with
  | EmptyString => false
  | String a s' => Ascii.eqb a c || has_char c s'
  end.

(** The characters of a string, each as a one-character string (what
    iterating over a [str] yields). *)
Fixpoint chars (s : string) : list string :=
  match s with
  | EmptyString => []
  | String a s' => String a EmptyString :: chars s'
  end.

(** ** Dictionaries

    A [dict] keeps its keys in insertion order; assigning to a key that is
    present replaces the value in place. *)
Definition dict (V : Type) : Type := list (string * V).

Fixpoint dict_lookup {V : Type} (d : dict V) (k : string) : option V :=
  match d with
  | [] => None
  | (k', v) :: d' => if String.eqb k' k then Some v else dict_lookup d' k
  end.

(** [k in d] *)
Definition dict_contains {V : Type} (d : dict V) (k : string) : bool :=
  match dict_lookup d k with
  | Some _ => true
  | None => false
  end.

(** [d[k]] *)
Definition dict_get {V : Type} (d : dict V) (k : string) : prog V :=
  match dict_lookup d k with
  | Some v => Ret v
  | None => Raise (KeyError k)
  end.

(** [d[k] = v] *)
Fixpoint dict_set {V : Type} (d : dict V) (k : string) (v : V) : dict V :=
  match d with
  | [] => [(k, v)]
  | (k', v') :: d' =>
      if String.eqb k' k then (k', v) :: d' else (k', v') :: dict_set d' k v
  end.

(** [{k: v for k, v in kvs}] *)
Definition dict_of_pairs {V : Type} (kvs : list (string * V)) : dict V :=
  fold_left (fun d kv => dict_set d (fst kv) (snd kv)) kvs [].

Definition dict_keys {V : Type} (d : dict V) : list string := map fst d.

(** [x in (a, b, ...)] on strings. *)
Definition tuple_contains (t : list string) (x : string) : bool :=
  existsb (String.eqb x) t.

(** ** Numbers *)

Module PyNum.

Definition prec : Z := 53.
Definition emax : Z := 1024.

(** An argument documented as a number is an [int] or a [float]. *)
Inductive pynum : Type :=
| PyInt (n : Z)
| PyFloat (f : spec_float).

(** [float(n)] before the overflow check: the nearest binary64 value,
    ties to even, infinite when [n] is out of range. *)
Definition float_of_Z (n : Z) : spec_float := binary_normalize prec emax n 0 false.

Definition is_infinite (f : spec_float) : bool :=
  match f with
  | S754_infinity _ => true
  | _ => false
  end.

(** [float(x)]: an [int] too large for a [float] raises [OverflowError]. *)
Definition to_float (x : pynum) : prog spec_float :=
  match x with
  | PyFloat f => Ret f
  | PyInt n =>
      let f := float_of_Z n in
      if is_infinite f then Raise OverflowError else Ret f
  end.

(** *** Comparison with an integer constant

    Python compares an [int] and a [float] by their exact values; every
    comparison with [nan] is false. *)

(** Exact magnitude of the finite float [m * 2^e] as a fraction. *)
Definition ratio (m : positive) (e : Z) : Z * Z :=
  match e with
  | Zneg p => (Zpos m, 2 ^ Zpos p)
  | _ => (Zpos m * 2 ^ e, 1)
  end.

Definition float_compare_Z (f : spec_float) (k : Z) : option comparison :=
  match f with
  | S754_nan => None
  | S754_infinity s => Some (if s then Lt else Gt)
  | S754_zero _ => Some (0 ?= k)
  | S754_finite s m e =>
      let (a, b) := ratio m e in
      Some ((if s then - a else a) ?= k * b)
  end.

Definition compare_Z (x : pynum) (k : Z) : option comparison :=
  match x with
  | PyInt n => Some (n ?= k)
  | PyFloat f => float_compare_Z f k
  end.

(** [x > k] *)
Definition gt_Z (x : pynum) (k : Z) : bool :=
  match compare_Z x k with
  | Some Gt => true
  | _ => false
  end.

(** [k <= x] *)
Definition Z_le (k : Z) (x : pynum) : bool :=
  match compare_Z x k with
  | Some (Gt | Eq) => true
  | _ => false
  end.

(** [x <= k] *)
Definition le_Z (x : pynum) (k : Z) : bool :=
  match compare_Z x k with
  | Some (Lt | Eq) => true
  | _ => false
  end.

(** *** Printing

    [dec] is [str] on an [int]. *)
Definition dec (n : Z) : string := NilZero.string_of_int (Z.to_int n).

Fixpoint zeros (k : nat) : string :=
  match k with
  | O => ""
  | S k' => String "0" (zeros k')
  end.

Definition zfill (width : nat) (s : string) : string :=
  zeros (width - String.length s) ++ s.

Definition ndigits (n : Z) : Z := Z.of_nat (String.length (dec n)).

(** Quotient of two positive integers rounded to the nearest integer,
    ties to even. *)
Definition div_half_even (a b : Z) : Z :=
  let (q, r) := Z.div_eucl a b in
  match 2 * r ?= b with
  | Lt => q
  | Gt => q + 1
  | Eq => if Z.even q then q else q + 1
  end.

(** [a / b * 10^k] as a fraction, for any sign of [k]. *)
Definition scale10 (a b k : Z) : Z * Z :=
  match k with
  | Zneg p => (a, b * 10 ^ Zpos p)
  | _ => (a * 10 ^ k, b)
  end.

(** [floor (log10 (a / b))] for positive [a] and [b]. *)
Definition log10_floor (a b : Z) : Z :=
  let k0 := ndigits a - ndigits b in
  let (a', b') := scale10 a b (- k0) in
  if b' <=? a' then k0 else k0 - 1.

Definition sign_str (s : bool) : string := if s then "-" else "".

(** Six digits after the point. *)
Definition fixed6 (s : bool) (a b : Z) : string :=
  let n := div_half_even (a * 10 ^ 6) b in
  sign_str s ++ dec (n / 10 ^ 6) ++ "." ++ zfill 6 (dec (n mod 10 ^ 6)).

(** The exponent: a sign and at least two digits. *)
Definition exp_str (k : Z) : string :=
  (if k <? 0 then "-" else "+") ++ zfill 2 (dec (Z.abs k)).

(** One digit, the point, six digits and the exponent. *)
Definition sci6 (s : bool) (a b : Z) : string :=
  let k := log10_floor a b in
  let (a', b') := scale10 a b (6 - k) in
  let n := div_half_even a' b' in
  let '(n, k) := if n =? 10 ^ 7 then (10 ^ 6, k + 1) else (n, k) in
  let d := dec n in
  sign_str s ++ substring 0 1 d ++ "." ++ substring 1 6 d ++ "e" ++ exp_str k.

(** ['%f' % (x,)] on a float. *)
Definition float_format_f (f : spec_float) : string :=
  match f with
  | S754_nan => "nan"
  | S754_infinity s => sign_str s ++ "inf"
  | S754_zero s => sign_str s ++ "0.000000"
  | S754_finite s m e => let (a, b) := ratio m e in fixed6 s a b
  end.

(** ['{:e}'.format(x)] on a float. *)
Definition float_format_e (f : spec_float) : string :=
  match f with
  | S754_nan => "nan"
  | S754_infinity s => sign_str s ++ "inf"
  | S754_zero s => sign_str s ++ "0.000000e+00"
  | S754_finite s m e => let (a, b) := ratio m e in sci6 s a b
  end.

(** [str] on a float prints the shortest decimal that reads back as the
    same float.  For [m * 2^e], in units of [2^(e-2)]: the float is [4m],
    the values that round to it lie between [4m - lower_gap] and [4m + 2],
    bounds included when [m] is even. *)
Definition lower_gap (m : positive) (e : Z) : Z :=
  if (Zpos m =? 2 ^ (prec - 1)) && (emin prec emax <? e) then 1 else 2.

(** Does [c * 10^kg] read back as [m * 2^e]? *)
Definition in_interval (m : positive) (e : Z) (c kg : Z) : bool :=
  let (ca, cb) := scale10 c 1 kg in
  let (ua, ub) := ratio 1 (e - 2) in
  let lo := (4 * Zpos m - lower_gap m e) * ua * cb in
  let hi := (4 * Zpos m + 2) * ua * cb in
  let v := ca * ub in
  if Z.even (Zpos m) then (lo <=? v) && (v <=? hi)
  else (lo <? v) && (v <? hi).

(** Which of [c * 10^kg] and [(c + 1) * 10^kg] is nearer to [m * 2^e]:
    [Lt] when it is the first. *)
Definition closer_low (m : positive) (e : Z) (c kg : Z) : comparison :=
  let (xa, xb) := ratio m e in
  let (ga, gb) := scale10 1 1 kg in
  2 * xa * gb ?= (2 * c + 1) * ga * xb.

(** The decimal of [n] digits that reads back as the float and is nearest
    to it, when there is one; [k] is the decimal exponent of the float. *)
Definition candidate (m : positive) (e : Z) (k : Z) (n : Z) : option (Z * Z) :=
  let kg := k - n + 1 in
  let (xa, xb) := ratio m e in
  let (a', b') := scale10 xa xb (- kg) in
  let c := a' / b' in
  match in_interval m e c kg, in_interval m e (c + 1) kg with
  | false, false => None
  | true, false => Some (c, kg)
  | false, true => Some (c + 1, kg)
  | true, true =>
      match closer_low m e c kg with
      | Lt => Some (c, kg)
      | Gt => Some (c + 1, kg)
      | Eq => Some (if Z.even c then c else c + 1, kg)
      end
  end.

Fixpoint shortest (fuel : nat) (m : positive) (e : Z) (k : Z) (n : Z) : Z * Z :=
  match fuel with
  | O => (Zpos m, 0)
  | S fuel' =>
      match candidate m e k n with
      | Some r => r
      | None => shortest fuel' m e k (n + 1)
      end
  end.

Fixpoint strip_zeros (s : list ascii) : list ascii :=
  match s with
  | "0"%char :: s' => strip_zeros s'
  | _ => s
  end.

Definition strip_trailing_zeros (s : string) : string :=
  string_of_list_ascii (rev (strip_zeros (rev (list_ascii_of_string s)))).

(** The digits of the shortest decimal and the position of its point. *)
Definition repr_digits (m : positive) (e : Z) : string * Z :=
  let (a, b) := ratio m e in
  let k := log10_floor a b in
  let (c, kg) := shortest 17 m e k 1 in
  let d := dec c in
  (strip_trailing_zeros d, Z.of_nat (String.length d) + kg).

(** Exponent notation below [1e-4] and from [1e16] on, else positional
    with at least one digit after the point. *)
Definition repr_layout (s : bool) (d : string) (decpt : Z) : string :=
  let n := Z.of_nat (String.length d) in
  if (decpt <=? -4) || (16 <? decpt) then
    sign_str s ++ substring 0 1 d
      ++ (if 1 <? n then "." ++ substring 1 (String.length d - 1) d else "")
      ++ "e" ++ exp_str (decpt - 1)
  else if decpt <=? 0 then
    sign_str s ++ "0." ++ zeros (Z.to_nat (- decpt)) ++ d
  else if n <=? decpt then
    sign_str s ++ d ++ zeros (Z.to_nat (decpt - n)) ++ ".0"
  else
    sign_str s ++ substring 0 (Z.to_nat decpt) d ++ "."
      ++ substring (Z.to_nat decpt) (String.length d - Z.to_nat decpt) d.

(** [str(x)] on a float. *)
Definition float_str (f : spec_float) : string :=
  match f with
  | S754_nan => "nan"
  | S754_infinity s => sign_str s ++ "inf"
  | S754_zero s => sign_str s ++ "0.0"
  | S754_finite s m e => let (d, decpt) := repr_digits m e in repr_layout s d decpt
  end.

(** ['%f' % (x,)] *)
Definition format_f (x : pynum) : prog string :=
  f <- to_float x ;; Ret (float_format_f f).

(** ['{:e}'.format(x)] *)
Definition format_e (x : pynum) : prog string :=
  f <- to_float x ;; Ret (float_format_e f).

(** ['{}'.format(x)] and ['%s' % x]. *)
Definition str (x : pynum) : string :=
  match x with
  | PyInt n => dec n
  | PyFloat f => float_str f
  end.

(** Float literals: [lit n d] is the float nearest to [n / 10^d], which
    is how a decimal literal is read; [n] is below [2^53] in magnitude and
    [d] is from 0 to 22, so that both operands of the division are
    exact. *)
Definition lit (n : Z) (d : Z) : spec_float :=
  SFdiv prec emax (float_of_Z n) (float_of_Z (10 ^ d)).

End PyNum.

(** ** apy and earth.geo: the argument checks *)

Module Checks.
Import PyNum.

(** Modelled from the spec: [apy.is_number] is not under src/; an argument
    documented as a number is an [int] or a [float]. *)
Definition is_number (x : pynum) : bool :=
  match x with
  | PyInt _ => true
  | PyFloat _ => true
  end.

Definition is_integer (x : pynum) : bool :=
  match x with
  | PyInt _ => true
  | PyFloat _ => false
  end.

(** Modelled from the spec: [apy.is_pos_number] is not under src/; the
    depth and the duration are positive numbers. *)
Definition is_pos_number (x : pynum) : bool := is_number x && gt_Z x 0.

(** Modelled from the spec: [apy.is_pos_integer] is not under src/; the
    source time function width is a positive integer. *)
Definition is_pos_integer (x : pynum) : bool := is_integer x && gt_Z x 0.

(** Modelled from the spec: [apy.is_string] is not under src/; the model
    identifier is a string. *)
Definition is_string (s : string) : bool := true.

(** Modelled from the spec: [earth.geo.is_lon] is not under src/; a
    longitude is a number of degrees from -180 to 180. *)
Definition is_lon (x : pynum) : bool :=
  is_number x && (Z_le (-180) x && le_Z x 180).

(** Modelled from the spec: [earth.geo.is_lat] is not under src/; a
    latitude is a number of degrees from -90 to 90.  The module imports it
    and never calls it. *)
Definition is_lat (x : pynum) : bool :=
  is_number x && (Z_le (-90) x && le_Z x 90).

End Checks.

(** ** source.moment *)

Module Moment.
Import PyNum.

(** Modelled from the spec: [source.moment.MomentTensor] is not under
    src/; it provides its six independent components in the fixed
    convention radial-radial, theta-theta, phi-phi, radial-theta,
    theta-phi, phi-radial. *)
Record MomentTensor : Type := mkMomentTensor {
  rr : pynum;
  tt : pynum;
  pp : pynum;
  rt : pynum;
  tp : pynum;
  pr : pynum
}.

(** [type(mt) is MomentTensor] *)
Definition is_MomentTensor (mt : MomentTensor) : bool := true.

(** [mt.get_six('USE')] *)
Definition get_six (mt : MomentTensor)
  : pynum * pynum * pynum * pynum * pynum * pynum :=
  (rr mt, tt mt, pp mt, rt mt, tp mt, pr mt).

End Moment.

(** ** units *)

Module Units.

Inductive kind : Type :=
| displacement
| velocity
| acceleration.

Definition kind_eqb (a b : kind) : bool :=
  match a, b with
  | displacement, displacement => true
  | velocity, velocity => true
  | acceleration, acceleration => true
  | _, _ => false
  end.

Definition kind_name (k : kind) : string :=
  match k with
  | displacement => "displacement"
  | velocity => "velocity"
  | acceleration => "acceleration"
  end.

(** Modelled from the spec: [units.MOTION_SI] is not under src/; the
    canonical SI unit of each kind (meters, meters/second,
    meters/second^2), under the three selectors of the request builder. *)
Definition MOTION_SI : dict string :=
  [("dis", "m"); ("vel", "m/s"); ("acc", "m/s2")].

(** A unit belongs to one kind and has one scale factor relative to the
    SI unit of that kind. *)
Record unit_info : Type := mkUnit {
  unit_kind : kind;
  scale : spec_float
}.

(** Modelled from the spec: the table of recognised units is reference
    data that is not under src/; the operations take it as [us]. *)
Definition UnitSystem : Type := dict unit_info.

Definition one : spec_float := PyNum.float_of_Z 1.

(** The SI units alone. *)
Definition SI : UnitSystem :=
  [("m", mkUnit displacement one);
   ("m/s", mkUnit velocity one);
   ("m/s2", mkUnit acceleration one)].

Section WithUnits.
Variable us : UnitSystem.

Definition unit_get (u : string) : prog unit_info :=
  match dict_lookup us u with
  | Some i => Ret i
  | None => Raise UnsupportedUnitError
  end.

(** Modelled from the spec: [kind_of(unit)] returns the kind or fails
    with [UnsupportedUnitError]. *)
Definition kind_of (u : string) : prog kind :=
  i <- unit_get u ;; Ret (unit_kind i).

(** Modelled from the spec: conversion within one kind is
    [value * (scale(unit) / scale(target_unit))]; across kinds it fails
    with [IncompatibleUnitError]. *)
Definition convert (value : spec_float) (u target : string) : prog spec_float :=
  i <- unit_get u ;;
  j <- unit_get target ;;
  if kind_eqb (unit_kind i) (unit_kind j) then
    Ret (SFmul PyNum.prec PyNum.emax value
           (SFdiv PyNum.prec PyNum.emax (scale i) (scale j)))
  else Raise IncompatibleUnitError.

End WithUnits.

End Units.

(** ** recordings *)

Module Recordings.

(** Modelled from the spec: [recordings.Seismogram] is not under src/; a
    fixed sample interval, an ordered sequence of amplitudes and a unit. *)
Record Seismogram : Type := mkSeismogram {
  time_delta : spec_float;
  amplitudes : list spec_float;
  unit : string
}.

(** Modelled from the spec: [recordings.Recording] is not under src/; a
    mapping from component code to Seismogram. *)
Record Recording : Type := mkRecording {
  components : dict Seismogram
}.

(** [max(xs)]: the first of the largest items; [ValueError] on an empty
    sequence. *)
Fixpoint max_from (cur : spec_float) (xs : list spec_float) : spec_float :=
  match xs with
  | [] => cur
  | x :: xs' =>
      max_from (if SFltb cur x then x else cur) xs'
  end.

Definition py_max (xs : list spec_float) : prog spec_float :=
  match xs with
  | [] => Raise ValueError
  | x :: xs' => Ret (max_from x xs')
  end.

(** The keys are exactly those of [triad]. *)
Definition same_keys (ks triad : list string) : bool :=
  Nat.eqb (length ks) (length triad)
  && forallb (fun k => existsb (String.eqb k) ks) triad.

Definition consistent (a b : Seismogram) : bool :=
  SFeqb (time_delta a) (time_delta b)
  && Nat.eqb (length (amplitudes a)) (length (amplitudes b)).

Section WithUnits.
Variable us : Units.UnitSystem.

(** Modelled from the spec: the constructor keeps the invariants
    [time_delta > 0], [amplitudes] non-empty and [unit] recognised.  The
    specification names an error kind for the last only;
    [ValueError] stands for the other two. *)
Definition Seismogram_init (td : spec_float) (amps : list spec_float)
    (u : string) : prog Seismogram :=
  if negb (SFltb (S754_zero false) td) then Raise ValueError
  else match amps with
       | [] => Raise ValueError
       | _ :: _ => Units.kind_of us u ;; Ret (mkSeismogram td amps u)
       end.

(** Modelled from the spec: [Seismogram.from_trace(trace, unit)] carries
    the amplitudes and the sample interval of the trace and the unit
    given. *)
Definition from_trace (t : Trace) (u : string) : prog Seismogram :=
  Seismogram_init (delta t) (data t) u.

(** Modelled from the spec: [gmt] is the kind of [unit], recomputed on
    every access. *)
Definition gmt (s : Seismogram) : prog string :=
  k <- Units.kind_of us (unit s) ;; Ret (Units.kind_name k).

(** Modelled from the spec: [get_pgm(target_unit)] is
    [max(abs(a) for a in amplitudes)], converted to [target_unit] when
    one is given. *)
Definition get_pgm (s : Seismogram) (target_unit : option string)
  : prog spec_float :=
  pgm <- py_max (map SFabs (amplitudes s)) ;;
  match target_unit with
  | None => Ret pgm
  | Some t => Units.convert us pgm (unit s) t
  end.

End WithUnits.

(** Modelled from the spec: the constructor checks, in this order, that
    the mapping is not empty, that its keys are exactly Z, R, T or exactly
    Z, N, E ([InvalidComponentSetError]), and that all components have
    the same [time_delta] and the same number of samples
    ([InconsistentComponentsError]).  The specification names no error
    kind for the empty mapping; [ValueError] stands for it. *)
Definition Recording_init (cs : dict Seismogram) : prog Recording :=
  match cs with
  | [] => Raise ValueError
  | (_, s0) :: rest =>
      if negb (same_keys (dict_keys cs) ["Z"; "R"; "T"]
               || same_keys (dict_keys cs) ["Z"; "N"; "E"])
      then Raise InvalidComponentSetError
      else if negb (forallb (fun kv => consistent (snd kv) s0) rest)
      then Raise InconsistentComponentsError
      else Ret (mkRecording cs)
  end.

End Recordings.

(** ** io.syngine *)

Module Syngine.
Import PyNum Checks.

Definition DEFAULT_MODEL : string := "ak135f_2s".

(** [from ..units import MOTION_SI as SI_UNITS] *)
Definition SI_UNITS : dict string := Units.MOTION_SI.

(** The dictionary literal in the body of [get_recording_url]. *)
Definition UNITS_PARAMETER : dict string :=
  [("dis", "displacement"); ("vel", "velocity"); ("acc", "acceleration")].

(** [x or default] on an optional string: [None] and [''] are false. *)
Definition or_default (x : option string) (default : string) : string :=
  match x with
  | None => default
  | Some EmptyString => default
  | Some s => s
  end.

Section Interpreter.

(** [__debug__]: false when the interpreter runs with [-O], which drops
    every [assert] statement. *)
Variable debug : bool.

(** [assert(c)] *)
Definition assert_ (c : bool) : prog unit :=
  if debug && negb c then Raise AssertionError else Ret tt.

(** [if x is not None: body(x)] *)
Definition if_not_None {A : Type} (x : option A) (body : A -> prog unit)
  : prog unit :=
  match x with
  | Some a => body a
  | None => Ret tt
  end.

Definition get_recording_url
    (src_lon src_lat src_depth : pynum) (mt : Moment.MomentTensor)
    (rcv_lon rcv_lat : pynum) (model : option string)
    (stf duration : option pynum) (gmt components : string)
    (validate : bool) : prog string :=
  (if validate then
     assert_ (is_number src_lon && is_lon src_lon) ;;
     assert_ (is_number src_lat && is_lon src_lat) ;;
     assert_ (is_pos_number src_depth) ;;
     assert_ (Moment.is_MomentTensor mt) ;;
     assert_ (is_number rcv_lon && is_lon rcv_lon) ;;
     assert_ (is_number rcv_lat && is_lon rcv_lat) ;;
     if_not_None model (fun m => assert_ (is_string m)) ;;
     if_not_None stf (fun n => assert_ (is_pos_integer n)) ;;
     if_not_None duration (fun d => assert_ (is_pos_number d)) ;;
     assert_ (dict_contains SI_UNITS gmt) ;;
     assert_ (tuple_contains ["ZRT"; "ZNE"] components)
   else Ret tt) ;;
  let url := "http://service.iris.edu/irisws/syngine/1/query?" in
  let url := url ++ "model=" ++ or_default model DEFAULT_MODEL in
  lon <- format_f src_lon ;;
  lat <- format_f src_lat ;;
  let url := url ++ "&sourcelongitude=" ++ lon ++ "&sourcelatitude=" ++ lat
                 ++ "&sourcedepthinmeters=" ++ str src_depth in
  let '(mrr, mtt, mpp, mrt, mtp, mpr) := Moment.get_six mt in
  let mrp := mpr in
  e1 <- format_e mrr ;;
  e2 <- format_e mtt ;;
  e3 <- format_e mpp ;;
  e4 <- format_e mrt ;;
  e5 <- format_e mrp ;;
  e6 <- format_e mtp ;;
  let url := url ++ remove_char "+"
                 ("&sourcemomenttensor=" ++ e1 ++ "," ++ e2 ++ "," ++ e3
                    ++ "," ++ e4 ++ "," ++ e5 ++ "," ++ e6) in
  let url := match stf with
             | Some n => url ++ "&sourcewidth=" ++ str n
             | None => url
             end in
  let url := url ++ "&receiverlongitude=" ++ str rcv_lon
                 ++ "&receiverlatitude=" ++ str rcv_lat in
  let url := match duration with
             | Some d => url ++ "&endtime=" ++ str d
             | None => url
             end in
  name <- dict_get UNITS_PARAMETER gmt ;;
  let url := url ++ "&units=" ++ name in
  let url := url ++ "&components=" ++ components in
  let url := url ++ "&format=miniseed" in
  Ret url.

(** The unit table against which the Seismogram constructor checks. *)
Variable us : Units.UnitSystem.

Definition get_recording
    (src_lon src_lat src_depth : pynum) (mt : Moment.MomentTensor)
    (rcv_lon rcv_lat : pynum) (model : option string)
    (stf duration : option pynum) (gmt components : string)
    (validate : bool) : prog Recordings.Recording :=
  url <- get_recording_url src_lon src_lat src_depth mt rcv_lon rcv_lat
           model stf duration gmt components validate ;;
  content <- http_get url ;;
  s <- read_mseed content ;;
  u <- dict_get SI_UNITS gmt ;;
  components <- mapM (fun ct => sm <- Recordings.from_trace us (snd ct) u ;;
                               Ret (fst ct, sm))
                  (combine (chars components) s) ;;
  r <- Recordings.Recording_init (dict_of_pairs components) ;;
  Ret r.

End Interpreter.

End Syngine.

(** ** Reading a URL

    How the receiving end reads the query of a URL: the text after the
    first [?], cut at every [&], each piece cut at its first [=]. *)

Module Url.

Fixpoint split (sep : ascii) (s : string) : list string :=
  match s with
  | EmptyString => [EmptyString]
  | String a s' =>
      if Ascii.eqb a sep then EmptyString :: split sep s'
      else match split sep s' with
           | [] => [String a EmptyString]
           | x :: xs => String a x :: xs
           end
  end.

Fixpoint after_first (c : ascii) (s : string) : string :=
  match s with
  | EmptyString => EmptyString
  | String a s' => if Ascii.eqb a c then s' else after_first c s'
  end.

Fixpoint key_value (s : string) : string * string :=
  match s with
  | EmptyString => (EmptyString, EmptyString)
  | String a s' =>
      if Ascii.eqb a "=" then (EmptyString, s')
      else let (k, v) := key_value s' in (String a k, v)
  end.

Definition query (url : string) : list (string * string) :=
  map key_value (split "&" (after_first "?" url)).

(** The query that lists the parameters [ps] in order. *)
Definition item (kv : string * string) : string := fst kv ++ "=" ++ snd kv.

Definition render (ps : list (string * string)) : string :=
  String.concat "&" (map item ps).

(** A parameter that can be rendered and read back: no [=] and no [&] in
    the key, no [&] in the value. *)
Definition readable (kv : string * string) : Prop :=
  has_char "=" (fst kv) = false
  /\ has_char "&" (fst kv) = false
  /\ has_char "&" (snd kv) = false.

(** The value of the first parameter called [key]. *)
Definition param (key : string) (url : string) : option string :=
  dict_lookup (query url) key.

End Url.

(** ** When a request is answered with a URL *)

Module Accept.
Import PyNum Checks.

(** [float(x)] does not overflow. *)
Definition fits (x : pynum) : bool :=
  match x with
  | PyFloat _ => true
  | PyInt n => negb (is_infinite (float_of_Z n))
  end.

Definition as_float (x : pynum) : spec_float :=
  match x with
  | PyFloat f => f
  | PyInt n => float_of_Z n
  end.

(** The text of ['%f' % (x,)] and of ['{:e}'.format(x)] when [x] fits. *)
Definition fix6 (x : pynum) : string := float_format_f (as_float x).
Definition sci (x : pynum) : string := float_format_e (as_float x).

Definition mt_fits (mt : Moment.MomentTensor) : bool :=
  fits (Moment.rr mt) && fits (Moment.tt mt) && fits (Moment.pp mt)
  && fits (Moment.rt mt) && fits (Moment.pr mt) && fits (Moment.tp mt).

Definition holds {A : Type} (c : A -> bool) (x : option A) : bool :=
  match x with
  | Some a => c a
  | None => true
  end.

(** The conditions that the assertions of [get_recording_url] test. *)
Definition checks (src_lon src_lat src_depth rcv_lon rcv_lat : pynum)
    (stf duration : option pynum) (gmt components : string) : bool :=
  is_lon src_lon && is_lon src_lat && is_pos_number src_depth
  && is_lon rcv_lon && is_lon rcv_lat
  && holds is_pos_integer stf && holds is_pos_number duration
  && dict_contains Syngine.SI_UNITS gmt
  && tuple_contains ["ZRT"; "ZNE"] components.

(** The assertions are tested when [validate] is [True] and the
    interpreter keeps assertions. *)
Definition validating (debug validate : bool) : bool := debug && validate.

(** The request is answered with a URL. *)
Definition accepted (debug : bool)
    (src_lon src_lat src_depth : pynum) (mt : Moment.MomentTensor)
    (rcv_lon rcv_lat : pynum) (stf duration : option pynum)
    (gmt components : string) (validate : bool) : bool :=
  (negb (validating debug validate)
   || checks src_lon src_lat src_depth rcv_lon rcv_lat stf duration
        gmt components)
  && fits src_lon && fits src_lat && mt_fits mt
  && dict_contains Syngine.UNITS_PARAMETER gmt.

(** Six components printed in scientific notation, joined by commas, with
    every [+] removed. *)
Definition six_text (xs : list pynum) : string :=
  remove_char "+" (String.concat "," (map sci xs)).

(** The optional parameter [&key=value]. *)
Definition optional (key : string) (x : option pynum) : string :=
  match x with
  | Some v => "&" ++ key ++ "=" ++ str v
  | None => ""
  end.

(** The text that [get_recording_url] builds for an accepted request,
    parameter by parameter; [name] is the value of the [units]
    parameter. *)
Definition endpoint : string :=
  "http://service.iris.edu/irisws/syngine/1/query?".

Definition source_text (src_lon src_lat src_depth : pynum) : string :=
  "&sourcelongitude=" ++ fix6 src_lon ++ "&sourcelatitude=" ++ fix6 src_lat
    ++ "&sourcedepthinmeters=" ++ str src_depth.

Definition tensor_text (mt : Moment.MomentTensor) : string :=
  "&sourcemomenttensor="
    ++ six_text [Moment.rr mt; Moment.tt mt; Moment.pp mt;
                 Moment.rt mt; Moment.pr mt; Moment.tp mt].

Definition receiver_text (rcv_lon rcv_lat : pynum) : string :=
  "&receiverlongitude=" ++ str rcv_lon ++ "&receiverlatitude=" ++ str rcv_lat.

Definition tail_text (name components : string) : string :=
  "&units=" ++ name ++ "&components=" ++ components ++ "&format=miniseed".

Definition url_text (src_lon src_lat src_depth : pynum)
    (mt : Moment.MomentTensor) (rcv_lon rcv_lat : pynum)
    (model : option string) (stf duration : option pynum)
    (name components : string) : string :=
  endpoint ++ "model=" ++ Syngine.or_default model Syngine.DEFAULT_MODEL
    ++ source_text src_lon src_lat src_depth
    ++ tensor_text mt
    ++ optional "sourcewidth" stf
    ++ receiver_text rcv_lon rcv_lat
    ++ optional "endtime" duration
    ++ tail_text name components.

(** The parameters of the URL of an accepted request, in order. *)
Definition optional_param (key : string) (x : option pynum)
  : list (string * string) :=
  match x with
  | Some v => [(key, str v)]
  | None => []
  end.

Definition parameters (src_lon src_lat src_depth : pynum)
    (mt : Moment.MomentTensor) (rcv_lon rcv_lat : pynum)
    (model : option string) (stf duration : option pynum)
    (name components : string) : list (string * string) :=
  ([("model", Syngine.or_default model Syngine.DEFAULT_MODEL);
    ("sourcelongitude", fix6 src_lon);
    ("sourcelatitude", fix6 src_lat);
    ("sourcedepthinmeters", str src_depth);
    ("sourcemomenttensor",
     six_text [Moment.rr mt; Moment.tt mt; Moment.pp mt;
               Moment.rt mt; Moment.pr mt; Moment.tp mt])]
   ++ optional_param "sourcewidth" stf
   ++ [("receiverlongitude", str rcv_lon); ("receiverlatitude", str rcv_lat)]
   ++ optional_param "endtime" duration
   ++ [("units", name); ("components", components); ("format", "miniseed")])%list.

End Accept.

(** ** Scientific notation

    The text that [{:e}] prints for a number, as a shape: a minus sign
    when the number is negative, one digit, a point, six digits, [e], and
    an exponent of at least two digits with its sign; and the shape that
    is left once every [+] is removed. *)

Module Scientific.
Import PyNum.

Definition is_digit (c : ascii) : bool :=
  (48 <=? nat_of_ascii c)%nat && (nat_of_ascii c <=? 57)%nat.

Fixpoint all_digits (s : string) : bool :=
  match s with
  | EmptyString => true
  | String c s' => is_digit c && all_digits s'
  end.

(** The text without its minus sign. *)
Definition unsigned (t : string) : string :=
  match t with
  | String c r => if Ascii.eqb c "-" then r else t
  | EmptyString => t
  end.

(** The exponent as [{:e}] prints it: a sign and at least two digits. *)
Definition exponent (e : string) : bool :=
  match e with
  | String c r =>
      (Ascii.eqb c "+" || Ascii.eqb c "-") && all_digits r
      && (2 <=? String.length r)%nat
  | EmptyString => false
  end.

(** The exponent once every [+] is removed: at least two digits, after a
    minus sign when it is negative. *)
Definition exponent_without_plus (e : string) : bool :=
  all_digits (unsigned e) && (2 <=? String.length (unsigned e))%nat.

(** A digit, a point, six digits and [e] before the exponent, after a
    minus sign when the number is negative. *)
Definition mantissa_then (exponent : string -> bool) (t : string) : bool :=
  match unsigned t with
  | String d (String p (String f1 (String f2 (String f3 (String f4
      (String f5 (String f6 (String e x)))))))) =>
      is_digit d && Ascii.eqb p "."
      && is_digit f1 && is_digit f2 && is_digit f3
      && is_digit f4 && is_digit f5 && is_digit f6
      && Ascii.eqb e "e" && exponent x
  | _ => false
  end.

Definition scientific : string -> bool := mantissa_then exponent.

Definition scientific_without_plus : string -> bool :=
  mantissa_then exponent_without_plus.

(** [math.isfinite(x)]: a [float] that is neither [nan] nor infinite, or
    an [int]. *)
Definition finite_float (f : spec_float) : bool :=
  match f with
  | S754_zero _ | S754_finite _ _ _ => true
  | S754_infinity _ | S754_nan => false
  end.

Definition finite (x : pynum) : bool :=
  match x with
  | PyInt _ => true
  | PyFloat f => finite_float f
  end.

End Scientific.

(** ** When a stream is turned into a Recording *)

Module Answer.

(** A trace from which a Seismogram can be built. *)
Definition well_formed (t : Trace) : bool :=
  SFltb (S754_zero false) (delta t)
  && match data t with
     | [] => false
     | _ :: _ => true
     end.

(** Two traces with the same sample interval and number of samples. *)
Definition same_shape (a b : Trace) : bool :=
  SFeqb (delta a) (delta b) && Nat.eqb (length (data a)) (length (data b)).

(** The Seismogram that carries the samples and the sample interval of
    the trace [t] and the unit [u]. *)
Definition seismogram_of (u : string) (t : Trace) : Recordings.Seismogram :=
  Recordings.mkSeismogram (delta t) (data t) u.

End Answer.

(** ** The arguments of a call

    Two notions of two calls having the same arguments: [equal], the
    equality [==] of Python on each argument, and [identical], which also
    asks for the same type and, on numbers, the same sign. *)

Module Call.
Import PyNum.

Record args : Type := mkArgs {
  src_lon : pynum;
  src_lat : pynum;
  src_depth : pynum;
  mt : Moment.MomentTensor;
  rcv_lon : pynum;
  rcv_lat : pynum;
  model : option string;
  stf : option pynum;
  duration : option pynum;
  gmt : string;
  components : string;
  validate : bool
}.

(** The call of [get_recording_url] with the arguments [a]. *)
Definition url (debug : bool) (a : args) : prog string :=
  Syngine.get_recording_url debug (src_lon a) (src_lat a) (src_depth a)
    (mt a) (rcv_lon a) (rcv_lat a) (model a) (stf a) (duration a) (gmt a)
    (components a) (validate a).











End Call.

(** ** A sample request *)

Module Sample.
Import PyNum.

(** [4.35], [50.85], [-120.5], [37.5] and [2.5] *)
Definition src_lon : pynum := PyFloat (lit 435 2).
Definition src_lat : pynum := PyFloat (lit 5085 2).
Definition src_depth : pynum := PyInt 10000.
Definition rcv_lon : pynum := PyFloat (lit (-1205) 1).
Definition rcv_lat : pynum := PyFloat (lit 375 1).
Definition duration : pynum := PyFloat (lit 25 1).

(** A moment tensor whose six components are all different. *)
Definition mt : Moment.MomentTensor :=
  Moment.mkMomentTensor (PyInt 1) (PyInt 2) (PyInt 3) (PyInt 4) (PyInt 5)
    (PyInt 6).

(** Three traces of four samples each, at 200 samples per second. *)
Definition amplitudes : list spec_float :=
  [S754_zero false; lit 1 0; lit (-38996) 4; lit 2 0].

Definition trace : Trace := mkTrace (lit 5 3) amplitudes.

Definition stream : Stream := [trace; trace; trace].

(** A world in which every request is answered with that stream. *)
Definition answering : world :=
  mkWorld (fun _ => Ok []) (fun _ => Ok stream).

(** The URL of the sample request with [stf=3], [duration=2.5],
    [gmt='acc'] and [components='ZNE']. *)
Definition url : string :=
  "http://service.iris.edu/irisws/syngine/1/query?model=ak135f_2s&sourcelongitude=4.350000&sourcelatitude=50.850000&sourcedepthinmeters=10000&sourcemomenttensor=1.000000e00,2.000000e00,3.000000e00,4.000000e00,6.000000e00,5.000000e00&sourcewidth=3&receiverlongitude=-120.5&receiverlatitude=37.5&endtime=2.5&units=acceleration&components=ZNE&format=miniseed".

(** A world in which the request fails. *)
Definition unreachable : world :=
  mkWorld (fun _ => Err (ExternalError "ConnectionError")) (fun _ => Ok []).

(** A world in which the stream has a fourth trace. *)
Definition answering_more : world :=
  mkWorld (fun _ => Ok [])
    (fun _ => Ok (stream ++ [mkTrace (lit 1 2) [lit 7 0]])%list).

(** A moment tensor with the components [-3.8996], [12345678], [2.5e-7],
    [0.0], [9.99999951] and [10**22]. *)
Definition mt_mixed : Moment.MomentTensor :=
  Moment.mkMomentTensor (PyFloat (lit (-38996) 4)) (PyInt 12345678)
    (PyFloat (lit 25 8)) (PyFloat (S754_zero false))
    (PyFloat (lit 999999951 8)) (PyInt (10 ^ 22)).



End Sample.

(** * Properties *)

(** ** Strings *)

Lemma append_assoc (a b c : string) : (a ++ b) ++ c = a ++ (b ++ c).
Proof.
  induction a as [|x a IH]; simpl; [reflexivity | now rewrite IH].
Qed.

Lemma append_empty_r (a : string) : a ++ "" = a.
Proof.
  induction a as [|x a IH]; simpl; [reflexivity | now rewrite IH].
Qed.

Lemma has_char_append (c : ascii) (a b : string) :
  has_char c (a ++ b) = has_char c a || has_char c b.
Proof.
  induction a as [|x a IH]; simpl; [reflexivity |].
  now rewrite IH, orb_assoc.
Qed.

Lemma remove_char_append (c : ascii) (a b : string) :
  remove_char c (a ++ b) = remove_char c a ++ remove_char c b.
Proof.
  induction a as [|x a IH]; simpl; [reflexivity |].
  destruct (Ascii.eqb x c); simpl; now rewrite IH.
Qed.

Lemma has_char_remove_char (c : ascii) (s : string) :
  has_char c (remove_char c s) = false.
Proof.
  induction s as [|x s IH]; simpl; [reflexivity |].
  destruct (Ascii.eqb x c) eqn:E; simpl; [exact IH |].
  now rewrite E, IH.
Qed.

Lemma has_char_remove_other (c d : ascii) (s : string) :
  has_char d s = false -> has_char d (remove_char c s) = false.
Proof.
  induction s as [|x s IH]; simpl; [reflexivity |].
  intros H. apply orb_false_elim in H as [Hx Hs].
  destruct (Ascii.eqb x c); simpl; [now apply IH |].
  now rewrite Hx, IH.
Qed.

(** ** Printing, on examples *)

Example str_float_short : PyNum.str (PyNum.PyFloat (PyNum.lit 435 2)) = "4.35".
Proof. vm_compute. reflexivity. Qed.

Example str_float_tenth : PyNum.str (PyNum.PyFloat (PyNum.lit 1 1)) = "0.1".
Proof. vm_compute. reflexivity. Qed.

Example str_float_exponent :
  PyNum.str (PyNum.PyFloat (PyNum.float_of_Z (10 ^ 16))) = "1e+16".
Proof. vm_compute. reflexivity. Qed.

Example str_float_small :
  PyNum.str (PyNum.PyFloat (PyNum.lit 1 5)) = "1e-05".
Proof. vm_compute. reflexivity. Qed.

Example str_int : PyNum.str (PyNum.PyInt (-10000)) = "-10000".
Proof. vm_compute. reflexivity. Qed.

Example format_f_float :
  PyNum.format_f (PyNum.PyFloat (PyNum.lit 123456789 3)) = Ret "123456.789000".
Proof. vm_compute. reflexivity. Qed.

Example format_f_int : PyNum.format_f (PyNum.PyInt 10000) = Ret "10000.000000".
Proof. vm_compute. reflexivity. Qed.

Example format_e_float :
  PyNum.format_e (PyNum.PyFloat (PyNum.lit 123456789 3)) = Ret "1.234568e+05".
Proof. vm_compute. reflexivity. Qed.

Example format_e_int :
  PyNum.format_e (PyNum.PyInt (10 ^ 17)) = Ret "1.000000e+17".
Proof. vm_compute. reflexivity. Qed.

Example format_e_small :
  PyNum.format_e (PyNum.PyFloat (PyNum.lit 1 5)) = Ret "1.000000e-05".
Proof. vm_compute. reflexivity. Qed.

Example format_e_overflow :
  PyNum.format_e (PyNum.PyInt (2 ^ 1024)) = Raise OverflowError.
Proof. vm_compute. reflexivity. Qed.

(** A finite float that is not zero is printed by [{:e}] as a sign, one
    digit, the point, the following digits, [e] and the exponent. *)
Lemma float_format_e_shape (s : bool) (m : positive) (e : Z) :
  exists n k,
    PyNum.float_format_e (S754_finite s m e)
    = PyNum.sign_str s ++ substring 0 1 (PyNum.dec n) ++ "."
        ++ substring 1 6 (PyNum.dec n) ++ "e" ++ PyNum.exp_str k.
Proof.
  cbn [PyNum.float_format_e]. destruct (PyNum.ratio m e) as [a b].
  unfold PyNum.sci6.
  destruct (PyNum.scale10 a b (6 - PyNum.log10_floor a b)) as [a' b'].
  destruct (PyNum.div_half_even a' b' =? 10 ^ 7); eexists; eexists; reflexivity.
Qed.

(** ** Programs *)

Lemma bind_Ret {A B : Type} (a : A) (f : A -> prog B) : bind (Ret a) f = f a.
Proof. reflexivity. Qed.

Lemma bind_Raise {A B : Type} (e : exn) (f : A -> prog B) :
  bind (Raise e) f = Raise e.
Proof. reflexivity. Qed.

Lemma io_free_bind {A B : Type} (p : prog A) (f : A -> prog B) :
  io_free p = true -> (forall a, io_free (f a) = true) ->
  io_free (bind p f) = true.
Proof.
  intros Hp Hf. destruct p; simpl in *; try discriminate; auto.
Qed.

Lemma io_free_run {A : Type} (p : prog A) (w1 w2 : world) :
  io_free p = true -> run w1 p = run w2 p.
Proof.
  destruct p; simpl; intros H; try discriminate; reflexivity.
Qed.

Lemma run_bind {A B : Type} (w : world) (p : prog A) (f : A -> prog B) :
  run w (bind p f) =
  match run w p with
  | Ok a => run w (f a)
  | Err e => Err e
  end.
Proof.
  induction p as [a|e|url k IH|c k IH]; simpl; auto.
Qed.

(** ** The request builder *)

Section Builder.
Import PyNum Checks Syngine Accept.

Lemma is_number_true (x : pynum) : is_number x = true.
Proof. now destruct x. Qed.

Lemma to_float_fits (x : pynum) :
  fits x = true -> to_float x = Ret (as_float x).
Proof.
  destruct x as [n|f]; simpl; [|reflexivity].
  now destruct (is_infinite (float_of_Z n)).
Qed.

Lemma to_float_overflow (x : pynum) :
  fits x = false -> to_float x = Raise OverflowError.
Proof.
  destruct x as [n|f]; simpl; [|discriminate].
  now destruct (is_infinite (float_of_Z n)).
Qed.

Lemma format_f_fits (x : pynum) :
  fits x = true -> format_f x = Ret (fix6 x).
Proof. intros H. unfold format_f. now rewrite (to_float_fits _ H). Qed.

Lemma format_e_fits (x : pynum) :
  fits x = true -> format_e x = Ret (sci x).
Proof. intros H. unfold format_e. now rewrite (to_float_fits _ H). Qed.

Lemma format_f_io_free (x : pynum) : io_free (format_f x) = true.
Proof.
  unfold format_f. destruct (fits x) eqn:E.
  - now rewrite (to_float_fits _ E).
  - now rewrite (to_float_overflow _ E).
Qed.

Lemma format_e_io_free (x : pynum) : io_free (format_e x) = true.
Proof.
  unfold format_e. destruct (fits x) eqn:E.
  - now rewrite (to_float_fits _ E).
  - now rewrite (to_float_overflow _ E).
Qed.

Lemma dict_get_io_free {V : Type} (d : dict V) (k : string) :
  io_free (dict_get d k) = true.
Proof. unfold dict_get. now destruct (dict_lookup d k). Qed.

Lemma assert_io_free (debug c : bool) : io_free (assert_ debug c) = true.
Proof. unfold assert_. now destruct (debug && negb c). Qed.

Lemma six_text_tensor (e1 e2 e3 e4 e5 e6 : string) :
  remove_char "+"
    ("&sourcemomenttensor=" ++ e1 ++ "," ++ e2 ++ "," ++ e3 ++ "," ++ e4
       ++ "," ++ e5 ++ "," ++ e6)
  = "&sourcemomenttensor="
      ++ remove_char "+" (String.concat "," [e1; e2; e3; e4; e5; e6]).
Proof. reflexivity. Qed.

Variable debug : bool.
Variables src_lon src_lat src_depth : pynum.
Variable mt : Moment.MomentTensor.
Variables rcv_lon rcv_lat : pynum.
Variable model : option string.
Variables stf duration : option pynum.
Variables gmt components : string.
Variable validate : bool.

Local Abbreviation call :=
  (get_recording_url debug src_lon src_lat src_depth mt rcv_lon rcv_lat
     model stf duration gmt components validate).

Local Ltac pass_or_stop :=
  match goal with
  | |- context [if negb ?c then _ else _] =>
      destruct c; [cbn [bind negb] | reflexivity]
  end.

Lemma model_assertion :
  if_not_None model (fun m => assert_ debug (is_string m)) = Ret tt.
Proof.
  unfold assert_, is_string. destruct model; simpl; [|reflexivity].
  now rewrite andb_false_r.
Qed.

(** The assertions stop a call whose arguments fail a check. *)
Lemma rejected_by_assertion :
  validating debug validate = true ->
  checks src_lon src_lat src_depth rcv_lon rcv_lat stf duration gmt components
    = false ->
  call = Raise AssertionError.
Proof.
  unfold validating, checks, get_recording_url.
  intros Hv Hc. apply andb_prop in Hv as [Hd ->].
  rewrite model_assertion. unfold assert_, Moment.is_MomentTensor.
  rewrite Hd, !is_number_true. cbn [andb negb bind].
  destruct stf as [n|], duration as [d|]; cbn [if_not_None holds bind] in *;
    repeat pass_or_stop; discriminate.
Qed.

(** When they are not tested, or all hold, the call goes on to build the
    URL. *)
Lemma assertions_pass (k : prog string) :
  negb (validating debug validate)
  || checks src_lon src_lat src_depth rcv_lon rcv_lat stf duration gmt
       components = true ->
  bind (if validate then
     assert_ debug (is_number src_lon && is_lon src_lon) ;;
     assert_ debug (is_number src_lat && is_lon src_lat) ;;
     assert_ debug (is_pos_number src_depth) ;;
     assert_ debug (Moment.is_MomentTensor mt) ;;
     assert_ debug (is_number rcv_lon && is_lon rcv_lon) ;;
     assert_ debug (is_number rcv_lat && is_lon rcv_lat) ;;
     if_not_None model (fun m => assert_ debug (is_string m)) ;;
     if_not_None stf (fun n => assert_ debug (is_pos_integer n)) ;;
     if_not_None duration (fun d => assert_ debug (is_pos_number d)) ;;
     assert_ debug (dict_contains SI_UNITS gmt) ;;
     assert_ debug (tuple_contains ["ZRT"; "ZNE"] components)
   else Ret tt) (fun _ => k) = k.
Proof.
  intros H. destruct validate; [|reflexivity].
  rewrite model_assertion. unfold assert_, Moment.is_MomentTensor.
  destruct debug;
    [|destruct stf, duration; cbn [andb bind if_not_None]; reflexivity].
  unfold validating, checks in H. cbn [andb negb orb] in H.
  do 8 (apply andb_prop in H as [H ?]).
  rewrite !is_number_true. cbn [andb negb bind].
  repeat match goal with E : _ = true |- _ => rewrite E; clear E end.
  cbn [negb bind].
  destruct stf as [n|], duration as [d|]; cbn [if_not_None holds bind] in *;
    repeat match goal with E : _ = true |- _ => rewrite E; clear E end;
    reflexivity.
Qed.

(** An accepted request is answered with the URL [url_text]. *)
Lemma accepted_url (name : string) :
  accepted debug src_lon src_lat src_depth mt rcv_lon rcv_lat stf duration
    gmt components validate = true ->
  dict_lookup UNITS_PARAMETER gmt = Some name ->
  call = Ret (url_text src_lon src_lat src_depth mt rcv_lon rcv_lat model
                stf duration name components).
Proof.
  unfold accepted, mt_fits. intros H Hn.
  do 4 (apply andb_prop in H as [H ?]).
  match goal with M : _ && fits (Moment.tp mt) = true |- _ =>
    do 5 (apply andb_prop in M as [M ?]) end.
  unfold get_recording_url. rewrite (assertions_pass _ H).
  rewrite !format_f_fits by assumption. cbn [bind].
  unfold Moment.get_six.
  rewrite !format_e_fits by assumption. cbn [bind].
  unfold dict_get. rewrite Hn. cbn [bind]. f_equal.
  rewrite six_text_tensor.
  unfold url_text, source_text, tensor_text, receiver_text, tail_text,
    six_text, optional, endpoint.
  destruct stf as [n|], duration as [d|]; cbn [map];
    repeat rewrite append_assoc; reflexivity.
Qed.

End Builder.

(** ** Printed numbers contain no ampersand *)

Section Printing.
Import PyNum Accept.

Local Abbreviation amp_free s := (has_char "&" s = false).

Lemma amp_append (a b : string) :
  amp_free a -> amp_free b -> amp_free (a ++ b).
Proof. intros Ha Hb. now rewrite has_char_append, Ha, Hb. Qed.

Lemma amp_String (c : ascii) (s : string) :
  Ascii.eqb c "&" = false -> amp_free s -> amp_free (String c s).
Proof. intros Hc Hs. simpl. now rewrite Hc, Hs. Qed.

Lemma amp_uint (d : Decimal.uint) : amp_free (NilEmpty.string_of_uint d).
Proof. induction d; simpl; auto. Qed.

Lemma amp_dec (n : Z) : amp_free (dec n).
Proof.
  unfold dec, NilZero.string_of_int, NilZero.string_of_uint.
  destruct (Z.to_int n) as [d|d]; destruct d; simpl; auto using amp_uint.
Qed.

Lemma amp_zeros (k : nat) : amp_free (zeros k).
Proof. induction k; simpl; auto. Qed.

Lemma amp_zfill (w : nat) (s : string) : amp_free s -> amp_free (zfill w s).
Proof. intros H. apply amp_append; [apply amp_zeros | exact H]. Qed.

Lemma amp_substring (n m : nat) (s : string) :
  amp_free s -> amp_free (substring n m s).
Proof.
  revert n m. induction s as [|c s IH]; intros n m H.
  - now destruct n, m.
  - simpl in H. apply orb_false_elim in H as [Hc Hs].
    destruct n as [|n]; [destruct m as [|m] |]; simpl; auto.
    apply orb_false_intro; [exact Hc | now apply IH].
Qed.

Lemma amp_sign (s : bool) : amp_free (sign_str s).
Proof. now destruct s. Qed.

Lemma amp_exp (k : Z) : amp_free (exp_str k).
Proof.
  unfold exp_str. apply amp_append; [now destruct (k <? 0) |].
  apply amp_zfill, amp_dec.
Qed.

Lemma has_char_In (c : ascii) (s : string) :
  has_char c s = true <-> In c (list_ascii_of_string s).
Proof.
  induction s as [|a s IH]; simpl; [split; [discriminate | contradiction] |].
  rewrite orb_true_iff, IH, Ascii.eqb_eq. tauto.
Qed.

Lemma strip_zeros_In (c : ascii) (l : list ascii) :
  In c (strip_zeros l) -> In c l.
Proof.
  induction l as [|a l IH]; [trivial |].
  intros H.
  destruct (Ascii.eqb a "0") eqn:E.
  - apply Ascii.eqb_eq in E. subst a. right. now apply IH.
  - assert (Hs : strip_zeros (a :: l) = a :: l).
    { destruct a as [[] [] [] [] [] [] [] []]; try reflexivity; discriminate. }
    now rewrite Hs in H.
Qed.

Lemma amp_strip (s : string) : amp_free s -> amp_free (strip_trailing_zeros s).
Proof.
  intros H. destruct (has_char "&" (strip_trailing_zeros s)) eqn:E; [|reflexivity].
  apply has_char_In in E. unfold strip_trailing_zeros in E.
  rewrite list_ascii_of_string_of_list_ascii in E.
  apply in_rev, strip_zeros_In, in_rev in E.
  apply has_char_In in E. congruence.
Qed.

Local Ltac amp :=
  repeat first
    [ apply amp_sign | apply amp_dec | apply amp_exp | apply amp_zeros
    | apply amp_zfill | apply amp_substring | apply amp_strip
    | apply amp_append | reflexivity | assumption ].

Lemma amp_fixed6 (s : bool) (a b : Z) : amp_free (fixed6 s a b).
Proof. unfold fixed6. amp. Qed.

Lemma amp_sci6 (s : bool) (a b : Z) : amp_free (sci6 s a b).
Proof.
  unfold sci6. destruct (scale10 a b (6 - log10_floor a b)) as [a' b'].
  destruct (div_half_even a' b' =? 10 ^ 7); cbv iota beta; amp.
Qed.

Lemma amp_float_format_f (f : spec_float) : amp_free (float_format_f f).
Proof.
  destruct f as [s|s| |s m e]; simpl; amp.
  destruct (ratio m e). apply amp_fixed6.
Qed.

Lemma amp_float_format_e (f : spec_float) : amp_free (float_format_e f).
Proof.
  destruct f as [s|s| |s m e]; simpl; amp.
  destruct (ratio m e). apply amp_sci6.
Qed.

Lemma amp_repr_layout (s : bool) (d : string) (decpt : Z) :
  amp_free d -> amp_free (repr_layout s d decpt).
Proof.
  intros H. unfold repr_layout.
  destruct ((decpt <=? -4) || (16 <? decpt)).
  - destruct (1 <? Z.of_nat (String.length d)); amp.
  - destruct (decpt <=? 0); [amp |].
    destruct (Z.of_nat (String.length d) <=? decpt); amp.
Qed.

Lemma amp_float_str (f : spec_float) : amp_free (float_str f).
Proof.
  destruct f as [s|s| |s m e]; simpl; amp.
  unfold repr_digits. destruct (ratio m e) as [a b].
  destruct (shortest 17 m e (log10_floor a b) 1) as [c kg].
  apply amp_repr_layout. amp.
Qed.

Lemma amp_str (x : pynum) : amp_free (str x).
Proof. destruct x; simpl; [apply amp_dec | apply amp_float_str]. Qed.

Lemma amp_fix6 (x : pynum) : amp_free (fix6 x).
Proof. apply amp_float_format_f. Qed.

Lemma amp_sci (x : pynum) : amp_free (sci x).
Proof. apply amp_float_format_e. Qed.

Lemma amp_six_text (a b c d e f : pynum) : amp_free (six_text [a; b; c; d; e; f]).
Proof.
  unfold six_text. apply has_char_remove_other. simpl.
  repeat (apply amp_append; [apply amp_sci |]; apply amp_String; [reflexivity |]).
  apply amp_sci.
Qed.

End Printing.

(** ** Reading back a rendered query *)

Section Reading.
Import Url.

Lemma split_one (a : string) : has_char "&" a = false -> split "&" a = [a].
Proof.
  induction a as [|c a IH]; [reflexivity |].
  intros H. simpl in H. apply orb_false_elim in H as [Hc Ha].
  cbn [split]. rewrite Hc, (IH Ha). reflexivity.
Qed.

Lemma split_segment (a rest : string) :
  has_char "&" a = false ->
  split "&" (a ++ String "&" rest) = a :: split "&" rest.
Proof.
  induction a as [|c a IH]; [reflexivity |].
  intros H. simpl in H. apply orb_false_elim in H as [Hc Ha].
  cbn [split append]. rewrite Hc, (IH Ha). reflexivity.
Qed.

Lemma split_concat (items : list string) :
  items <> [] ->
  Forall (fun s => has_char "&" s = false) items ->
  split "&" (String.concat "&" items) = items.
Proof.
  induction items as [|x items IH]; [congruence |].
  intros _ H. inversion H as [|? ? Hx Hrest]; subst.
  destruct items as [|y items].
  - simpl. now apply split_one.
  - change (String.concat "&" (x :: y :: items))
      with (x ++ String "&" (String.concat "&" (y :: items))).
    rewrite (split_segment _ _ Hx), IH; [reflexivity | discriminate | assumption].
Qed.

Lemma key_value_item (k v : string) :
  has_char "=" k = false -> key_value (item (k, v)) = (k, v).
Proof.
  unfold item. cbn [fst snd append].
  induction k as [|c k IH]; [reflexivity |].
  intros H. simpl in H. apply orb_false_elim in H as [Hc Hk].
  cbn [key_value append]. rewrite Hc, (IH Hk). reflexivity.
Qed.

Lemma readable_item (kv : string * string) :
  readable kv -> has_char "&" (item kv) = false.
Proof.
  intros (_ & Hk & Hv). unfold item.
  rewrite !has_char_append, Hk, Hv. reflexivity.
Qed.

(** Reading what was rendered gives the parameters back. *)
Lemma query_render (ps : list (string * string)) :
  ps <> [] -> Forall readable ps ->
  query (Accept.endpoint ++ render ps) = ps.
Proof.
  intros Hne H. unfold query, render.
  change (after_first "?" (Accept.endpoint ++ String.concat "&" (map item ps)))
    with (String.concat "&" (map item ps)).
  rewrite split_concat.
  - rewrite map_map. induction H as [|[k v] ps' Hkv _ IH]; [reflexivity |].
    cbn [map]. rewrite key_value_item by apply Hkv.
    destruct ps' as [|q ps'']; [reflexivity |].
    f_equal. apply IH. discriminate.
  - destruct ps; [congruence | discriminate].
  - apply Forall_map. revert H. apply Forall_impl. exact readable_item.
Qed.

End Reading.

(** ** The URL of an accepted request, read back *)

Section Query.
Import PyNum Checks Syngine Accept.

Variables src_lon src_lat src_depth : pynum.
Variable mt : Moment.MomentTensor.
Variables rcv_lon rcv_lat : pynum.
Variable model : option string.
Variables stf duration : option pynum.
Variables name components : string.

Lemma url_text_render :
  url_text src_lon src_lat src_depth mt rcv_lon rcv_lat model stf duration
    name components
  = endpoint ++ Url.render (parameters src_lon src_lat src_depth mt rcv_lon
                              rcv_lat model stf duration name components).
Proof.
  unfold url_text, source_text, tensor_text, receiver_text, tail_text,
    optional, parameters, optional_param, Url.render, Url.item.
  destruct stf as [n|], duration as [d|];
    cbn [app map String.concat fst snd];
    repeat rewrite append_assoc; reflexivity.
Qed.

Lemma parameters_not_empty :
  parameters src_lon src_lat src_depth mt rcv_lon rcv_lat model stf duration
    name components <> [].
Proof. discriminate. Qed.

Lemma parameters_readable :
  has_char "&" (or_default model DEFAULT_MODEL) = false ->
  has_char "&" name = false ->
  has_char "&" components = false ->
  Forall Url.readable
    (parameters src_lon src_lat src_depth mt rcv_lon rcv_lat model stf
       duration name components).
Proof.
  intros Hm Hn Hc. unfold parameters, optional_param.
  assert (R : forall k v, has_char "=" k = false -> has_char "&" k = false ->
                          has_char "&" v = false -> Url.readable (k, v))
    by (intros k v ? ? ?; repeat split; assumption).
  destruct stf as [n|], duration as [d|]; cbn [app];
    repeat (apply Forall_cons; [apply R; try reflexivity |]);
    try apply Forall_nil;
    auto using amp_fix6, amp_str, amp_six_text.
Qed.

Lemma url_text_query :
  has_char "&" (or_default model DEFAULT_MODEL) = false ->
  has_char "&" name = false ->
  has_char "&" components = false ->
  Url.query (url_text src_lon src_lat src_depth mt rcv_lon rcv_lat model stf
               duration name components)
  = parameters src_lon src_lat src_depth mt rcv_lon rcv_lat model stf duration
      name components.
Proof.
  intros Hm Hn Hc. rewrite url_text_render.
  apply query_render;
    [apply parameters_not_empty | now apply parameters_readable].
Qed.

End Query.

Lemma unit_name_of_selector (gmt name : string) :
  dict_lookup Syngine.UNITS_PARAMETER gmt = Some name ->
  (gmt = "dis" /\ name = "displacement")
  \/ (gmt = "vel" /\ name = "velocity")
  \/ (gmt = "acc" /\ name = "acceleration").
Proof.
  unfold Syngine.UNITS_PARAMETER. cbn [dict_lookup].
  destruct (String.eqb_spec "dis" gmt) as [<-|_];
    [intros [= <-]; auto |].
  destruct (String.eqb_spec "vel" gmt) as [<-|_];
    [intros [= <-]; auto |].
  destruct (String.eqb_spec "acc" gmt) as [<-|_];
    [intros [= <-]; auto | discriminate].
Qed.

Lemma unit_name_amp (gmt name : string) :
  dict_lookup Syngine.UNITS_PARAMETER gmt = Some name ->
  has_char "&" name = false.
Proof.
  intros H. apply unit_name_of_selector in H.
  destruct H as [[_ ->]|[[_ ->]|[_ ->]]]; reflexivity.
Qed.

Lemma param_model (m rest : string) :
  has_char "&" m = false ->
  Url.param "model" (Accept.endpoint ++ "model=" ++ m ++ String "&" rest)
  = Some m.
Proof.
  intros H. unfold Url.param, Url.query.
  change (Url.after_first "?"
            (Accept.endpoint ++ "model=" ++ m ++ String "&" rest))
    with (Url.item ("model", m) ++ String "&" rest).
  rewrite split_segment by (apply readable_item; repeat split; assumption).
  cbn [map dict_lookup]. rewrite key_value_item by reflexivity.
  reflexivity.
Qed.

(** ** The claims on the request builder *)

Section Requests.
Import PyNum Checks Syngine Accept.

Variable debug : bool.
Variables src_lon src_lat src_depth : pynum.
Variable mt : Moment.MomentTensor.
Variables rcv_lon rcv_lat : pynum.
Variable model : option string.
Variables stf duration : option pynum.
Variables gmt components : string.
Variable validate : bool.

Local Abbreviation call :=
  (get_recording_url debug src_lon src_lat src_depth mt rcv_lon rcv_lat
     model stf duration gmt components validate).

Local Abbreviation is_accepted :=
  (accepted debug src_lon src_lat src_depth mt rcv_lon rcv_lat stf duration
     gmt components validate = true).

Lemma accepted_name :
  is_accepted -> exists name, dict_lookup UNITS_PARAMETER gmt = Some name.
Proof.
  unfold accepted. intros H. apply andb_prop in H as [_ H].
  unfold dict_contains in H.
  destruct (dict_lookup UNITS_PARAMETER gmt) as [name|];
    [now exists name | discriminate].
Qed.

(** An accepted request is answered with a URL that reads back as the
    parameters, provided neither the model nor the components selector
    contains an ampersand. *)
Lemma accepted_query (name : string) :
  is_accepted ->
  dict_lookup UNITS_PARAMETER gmt = Some name ->
  has_char "&" (or_default model DEFAULT_MODEL) = false ->
  has_char "&" components = false ->
  exists url, call = Ret url
    /\ Url.query url = parameters src_lon src_lat src_depth mt rcv_lon rcv_lat
                         model stf duration name components.
Proof.
  intros Ha Hn Hm Hc. eexists. split; [apply accepted_url; eassumption |].
  apply url_text_query; try assumption.
  now apply unit_name_amp with gmt.
Qed.

Lemma url_text_model_first (name : string) :
  exists rest,
    url_text src_lon src_lat src_depth mt rcv_lon rcv_lat model stf duration
      name components
    = endpoint ++ "model=" ++ or_default model DEFAULT_MODEL
        ++ String "&" ("sourcelongitude=" ++ rest).
Proof.
  unfold url_text, source_text. cbn [append]. eexists. reflexivity.
Qed.

(** A call either returns a URL or raises; it asks nothing of the outside
    world. *)
Lemma if_not_None_io_free {A : Type} (x : option A) (c : A -> bool) :
  io_free (if_not_None x (fun a => assert_ debug (c a))) = true.
Proof. destruct x; [apply assert_io_free | reflexivity]. Qed.

Lemma get_recording_url_io_free : io_free call = true.
Proof.
  unfold get_recording_url, Moment.get_six. cbv zeta.
  apply io_free_bind.
  - destruct validate; [|reflexivity].
    repeat (apply io_free_bind;
            [first [apply assert_io_free | apply if_not_None_io_free] | intros _]).
    apply assert_io_free.
  - intros _.
    do 2 (apply io_free_bind; [apply format_f_io_free | intros ?]).
    do 6 (apply io_free_bind; [apply format_e_io_free | intros ?]).
    apply io_free_bind; [apply dict_get_io_free | intros ?].
    reflexivity.
Qed.

(** C10, as amended: without a model the URL names the default model
    [ak135f_2s]; a non-empty model string is written verbatim after
    [model=], and when it contains no ampersand the URL names exactly that
    model. *)
Theorem model_parameter :
  is_accepted ->
  exists url, call = Ret url
    /\ (model = None ->
        Url.param "model" url = Some "ak135f_2s"
        /\ exists rest,
             url = "http://service.iris.edu/irisws/syngine/1/query?model=ak135f_2s&sourcelongitude="
                   ++ rest)
    /\ (forall m, model = Some m -> m <> "" ->
        (has_char "&" m = false -> Url.param "model" url = Some m)
        /\ exists rest,
             url = "http://service.iris.edu/irisws/syngine/1/query?model="
                   ++ m ++ "&sourcelongitude=" ++ rest).
Proof.
  intros Ha. destruct (accepted_name Ha) as [name Hn].
  eexists. split; [apply accepted_url; eassumption |].
  destruct (url_text_model_first name) as [rest ->]. split.
  - intros ->. split; [now apply param_model | now exists rest].
  - intros m -> Hm.
    assert (Hd : or_default (Some m) DEFAULT_MODEL = m)
      by (destruct m; [congruence | reflexivity]).
    rewrite Hd. split; [apply param_model | now exists rest].
Qed.

End Requests.

Lemma model_parameter_witness :
  Accept.accepted true Sample.src_lon Sample.src_lat Sample.src_depth
    Sample.mt Sample.rcv_lon Sample.rcv_lat (Some (PyNum.PyInt 3))
    (Some Sample.duration) "acc" "ZNE" true = true
  /\ (exists url,
        Syngine.get_recording_url true Sample.src_lon Sample.src_lat
          Sample.src_depth Sample.mt Sample.rcv_lon Sample.rcv_lat None
          (Some (PyNum.PyInt 3)) (Some Sample.duration) "acc" "ZNE" true
        = Ret url
        /\ Url.param "model" url = Some "ak135f_2s")
  /\ ("prem" <> "" /\ has_char "&" "prem" = false)
  /\ (exists url,
        Syngine.get_recording_url true Sample.src_lon Sample.src_lat
          Sample.src_depth Sample.mt Sample.rcv_lon Sample.rcv_lat
          (Some "prem") (Some (PyNum.PyInt 3)) (Some Sample.duration) "acc"
          "ZNE" true
        = Ret url
        /\ Url.param "model" url = Some "prem"
        /\ exists rest,
             url = "http://service.iris.edu/irisws/syngine/1/query?model=prem&sourcelongitude="
                   ++ rest).
Proof.
  assert (H : Accept.accepted true Sample.src_lon Sample.src_lat
                Sample.src_depth Sample.mt Sample.rcv_lon Sample.rcv_lat
                (Some (PyNum.PyInt 3)) (Some Sample.duration) "acc" "ZNE" true
              = true) by (vm_compute; reflexivity).
  assert (Hne : "prem" <> "") by discriminate.
  assert (Hamp : has_char "&" "prem" = false) by reflexivity.
  split; [exact H |]. split; [| split; [exact (conj Hne Hamp) |]].
  - destruct (model_parameter true Sample.src_lon Sample.src_lat
                Sample.src_depth Sample.mt Sample.rcv_lon Sample.rcv_lat None
                (Some (PyNum.PyInt 3)) (Some Sample.duration) "acc" "ZNE" true
                H)
      as (url & Hurl & Hnone & _).
    exists url. split; [exact Hurl | apply Hnone; reflexivity].
  - destruct (model_parameter true Sample.src_lon Sample.src_lat
                Sample.src_depth Sample.mt Sample.rcv_lon Sample.rcv_lat
                (Some "prem") (Some (PyNum.PyInt 3)) (Some Sample.duration)
                "acc" "ZNE" true H)
      as (url & Hurl & _ & Hsome).
    destruct (Hsome "prem" eq_refl Hne) as [Hparam Hrest].
    exists url. split; [exact Hurl |].
    split; [exact (Hparam Hamp) | exact Hrest].
Defined.

(** The claim C10 fails at the model [prem&sourcewidth=9]: the text after
    [model=] ends at the ampersand, so that the URL names the model [prem]
    and carries a [sourcewidth] parameter besides. *)
Lemma ampersand_model_counterexample :
  "prem&sourcewidth=9" <> ""
  /\ Syngine.get_recording_url true Sample.src_lon Sample.src_lat
       Sample.src_depth Sample.mt Sample.rcv_lon Sample.rcv_lat
       (Some "prem&sourcewidth=9") None None "dis" "ZRT" true
     = Ret "http://service.iris.edu/irisws/syngine/1/query?model=prem&sourcewidth=9&sourcelongitude=4.350000&sourcelatitude=50.850000&sourcedepthinmeters=10000&sourcemomenttensor=1.000000e00,2.000000e00,3.000000e00,4.000000e00,6.000000e00,5.000000e00&receiverlongitude=-120.5&receiverlatitude=37.5&units=displacement&components=ZRT&format=miniseed"
  /\ Url.param "model"
       "http://service.iris.edu/irisws/syngine/1/query?model=prem&sourcewidth=9&sourcelongitude=4.350000&sourcelatitude=50.850000&sourcedepthinmeters=10000&sourcemomenttensor=1.000000e00,2.000000e00,3.000000e00,4.000000e00,6.000000e00,5.000000e00&receiverlongitude=-120.5&receiverlatitude=37.5&units=displacement&components=ZRT&format=miniseed"
     = Some "prem"
  /\ Url.param "model"
       "http://service.iris.edu/irisws/syngine/1/query?model=prem&sourcewidth=9&sourcelongitude=4.350000&sourcelatitude=50.850000&sourcedepthinmeters=10000&sourcemomenttensor=1.000000e00,2.000000e00,3.000000e00,4.000000e00,6.000000e00,5.000000e00&receiverlongitude=-120.5&receiverlatitude=37.5&units=displacement&components=ZRT&format=miniseed"
     <> Some "prem&sourcewidth=9".
Proof.
  split; [discriminate |]. split; [vm_compute; reflexivity |].
  split; [vm_compute; reflexivity |]. vm_compute. discriminate.
Qed.

Section Parameters.
Import PyNum Checks Syngine Accept.

Variable debug : bool.
Variables src_lon src_lat src_depth : pynum.
Variable mt : Moment.MomentTensor.
Variables rcv_lon rcv_lat : pynum.
Variable model : option string.
Variables stf duration : option pynum.
Variables gmt components : string.
Variable validate : bool.

Local Abbreviation call :=
  (get_recording_url debug src_lon src_lat src_depth mt rcv_lon rcv_lat
     model stf duration gmt components validate).

Local Abbreviation is_accepted :=
  (accepted debug src_lon src_lat src_depth mt rcv_lon rcv_lat stf duration
     gmt components validate = true).

Local Abbreviation params name :=
  (parameters src_lon src_lat src_depth mt rcv_lon rcv_lat model stf duration
     name components).

Lemma lookup_sourcewidth (name : string) :
  dict_lookup (params name) "sourcewidth" = option_map str stf.
Proof.
  unfold parameters.
  destruct stf as [n|], duration as [d|]; reflexivity.
Qed.

Lemma lookup_endtime (name : string) :
  dict_lookup (params name) "endtime" = option_map str duration.
Proof.
  unfold parameters.
  destruct stf as [n|], duration as [d|]; reflexivity.
Qed.

Lemma lookup_units (name : string) :
  dict_lookup (params name) "units" = Some name.
Proof.
  unfold parameters.
  destruct stf as [n|], duration as [d|]; reflexivity.
Qed.

Lemma lookup_tensor (name : string) :
  dict_lookup (params name) "sourcemomenttensor"
  = Some (six_text [Moment.rr mt; Moment.tt mt; Moment.pp mt;
                    Moment.rt mt; Moment.pr mt; Moment.tp mt]).
Proof. reflexivity. Qed.

Lemma params_end (name : string) :
  exists front,
    params name
    = (front ++ [("units", name); ("components", components);
                 ("format", "miniseed")])%list.
Proof.
  unfold parameters. eexists. rewrite !app_assoc. reflexivity.
Qed.

Lemma url_text_end (name : string) :
  exists front,
    url_text src_lon src_lat src_depth mt rcv_lon rcv_lat model stf duration
      name components
    = front ++ "&units=" ++ name ++ "&components=" ++ components
        ++ "&format=miniseed".
Proof.
  unfold url_text. fold (tail_text name components).
  eexists. rewrite <- !append_assoc. reflexivity.
Qed.

Lemma url_text_tensor (name : string) :
  exists front rest,
    url_text src_lon src_lat src_depth mt rcv_lon rcv_lat model stf duration
      name components
    = front ++ "&sourcemomenttensor="
        ++ six_text [Moment.rr mt; Moment.tt mt; Moment.pp mt;
                     Moment.rt mt; Moment.pr mt; Moment.tp mt]
        ++ String "&" rest.
Proof.
  unfold url_text, tensor_text.
  exists (endpoint ++ "model=" ++ or_default model DEFAULT_MODEL
            ++ source_text src_lon src_lat src_depth).
  destruct stf as [n|].
  - exists (("sourcewidth" ++ "=" ++ str n) ++ receiver_text rcv_lon rcv_lat
              ++ optional "endtime" duration ++ tail_text name components).
    rewrite !append_assoc. reflexivity.
  - exists (("receiverlongitude=" ++ str rcv_lon ++ "&receiverlatitude="
               ++ str rcv_lat)
              ++ optional "endtime" duration ++ tail_text name components).
    unfold receiver_text. rewrite !append_assoc. reflexivity.
Qed.

End Parameters.

(** ** The shape of the text of [{:e}] *)

Section Notation.
Import Scientific.

(** The digits of a numeral. *)
Lemma string_of_uint_digits (d : Decimal.uint) :
  all_digits (NilEmpty.string_of_uint d) = true.
Proof. induction d; simpl; auto. Qed.

Lemma string_of_uint_length (d : Decimal.uint) :
  String.length (NilEmpty.string_of_uint d) = Decimal.nb_digits d.
Proof. induction d; simpl; auto. Qed.

Lemma of_lu_upper (d : Decimal.uint) :
  (Unsigned.of_lu d < 10 ^ N.of_nat (Decimal.nb_digits d))%N.
Proof.
  induction d; cbn [Decimal.nb_digits]; rewrite ?Nat2N.inj_succ, ?N.pow_succ_r';
    try (rewrite Unsigned.of_lu_eqn; cbn [Unsigned.hd Unsigned.tl]); try lia.
  simpl. lia.
Qed.

Lemma nztail_fixed_tail (d : Decimal.uint) :
  nztail d = d -> d <> Decimal.Nil ->
  Unsigned.tl d = Decimal.Nil
  \/ (nztail (Unsigned.tl d) = Unsigned.tl d /\ Unsigned.tl d <> Decimal.Nil).
Proof.
  destruct d; cbn [nztail Unsigned.tl]; intros H Hn;
    try congruence;
    try (destruct d; [left; reflexivity | right; split; [congruence | discriminate] ..]).
  destruct (nztail d) eqn:E; try discriminate;
    right; (split; [congruence | intros ->; discriminate]).
Qed.

Lemma of_lu_lower (d : Decimal.uint) :
  nztail d = d -> d <> Decimal.Nil ->
  (10 ^ N.of_nat (Decimal.nb_digits d - 1) <= Unsigned.of_lu d)%N.
Proof.
  induction d; intros H Hn; try congruence;
    (destruct (nztail_fixed_tail _ H Hn) as [Ht|[Ht Htn]];
     cbn [Unsigned.tl] in *;
     [ subst; simpl in H |- *; try discriminate; lia
     | specialize (IHd Ht Htn);
       rewrite Unsigned.of_lu_eqn; cbn [Unsigned.hd Unsigned.tl Decimal.nb_digits];
       destruct d; try congruence;
       cbn [Decimal.nb_digits] in *;
       rewrite ?Nat.sub_succ, ?Nat.sub_0_r in *;
       rewrite Nat2N.inj_succ, N.pow_succ_r'; lia ]).
Qed.

Lemma to_little_uint_spec (p : positive) :
  Unsigned.of_lu (Pos.to_little_uint p) = N.pos p
  /\ nztail (Pos.to_little_uint p) = Pos.to_little_uint p
  /\ Pos.to_little_uint p <> Decimal.Nil.
Proof.
  assert (Hv : Unsigned.of_lu (Pos.to_little_uint p) = N.pos p).
  { rewrite <- Unsigned.of_lu_rev. apply Unsigned.of_to. }
  assert (Hz : nztail (Pos.to_little_uint p) <> Decimal.Nil).
  { intros E. apply Unsigned.of_lu_0 in E. rewrite Hv in E. discriminate. }
  split; [exact Hv |]. split.
  - pose proof (Unsigned.to_of_lu (Pos.to_little_uint p)) as H.
    rewrite Hv in H. cbn [Unsigned.to_lu] in H.
    unfold lnorm in H.
    destruct (nztail (Pos.to_little_uint p)) eqn:E;
      try congruence.
  - intros E. rewrite E in Hz. now apply Hz.
Qed.

Lemma dec_pos (p : positive) :
  PyNum.dec (Z.pos p) = NilEmpty.string_of_uint (Pos.to_uint p).
Proof.
  unfold PyNum.dec. cbn [Z.to_int NilZero.string_of_int].
  unfold NilZero.string_of_uint.
  pose proof (Unsigned.to_uint_nonnil p) as H.
  destruct (Pos.to_uint p); congruence.
Qed.

Lemma dec_pos_length (p : positive) :
  exists n : nat,
    String.length (PyNum.dec (Z.pos p)) = S n
    /\ 10 ^ Z.of_nat n <= Z.pos p < 10 ^ Z.of_nat (S n).
Proof.
  destruct (to_little_uint_spec p) as (Hv & Hz & Hn).
  pose proof (of_lu_lower _ Hz Hn) as Hlo.
  pose proof (of_lu_upper (Pos.to_little_uint p)) as Hhi.
  rewrite Hv in Hlo, Hhi.
  rewrite dec_pos, string_of_uint_length.
  unfold Pos.to_uint. rewrite nb_digits_rev.
  destruct (Decimal.nb_digits (Pos.to_little_uint p)) as [|n] eqn:E.
  - destruct (Pos.to_little_uint p); discriminate.
  - exists n. split; [reflexivity |].
    rewrite Nat.sub_succ, Nat.sub_0_r in Hlo.
    apply N2Z.inj_le in Hlo. apply N2Z.inj_lt in Hhi.
    rewrite N2Z.inj_pow, nat_N_Z in Hlo, Hhi.
    change (Z.of_N 10) with 10 in Hlo, Hhi.
    change (Z.of_N (N.pos p)) with (Z.pos p) in Hlo, Hhi.
    split; assumption.
Qed.

Lemma dec_digits (n : Z) : 0 <= n -> all_digits (PyNum.dec n) = true.
Proof.
  destruct n as [|p|p]; intros H; try lia.
  - reflexivity.
  - rewrite dec_pos. apply string_of_uint_digits.
Qed.

(** The arithmetic of the exponent. *)

Lemma ndigits_spec (a : Z) :
  0 < a ->
  1 <= PyNum.ndigits a
  /\ 10 ^ (PyNum.ndigits a - 1) <= a < 10 ^ PyNum.ndigits a.
Proof.
  destruct a as [|p|p]; intros H; try lia.
  unfold PyNum.ndigits.
  destruct (dec_pos_length p) as (n & -> & Hn).
  rewrite Nat2Z.inj_succ in *.
  replace (Z.succ (Z.of_nat n) - 1) with (Z.of_nat n) by lia.
  split; [lia | exact Hn].
Qed.

Lemma scale10_cross (a b k M : Z) :
  0 <= M -> 0 <= k + M ->
  fst (PyNum.scale10 a b k) * (b * 10 ^ M)
  = snd (PyNum.scale10 a b k) * (a * 10 ^ (k + M)).
Proof.
  intros HM Hk. destruct k as [|p|p]; cbn [PyNum.scale10 fst snd].
  - rewrite Z.pow_0_r. cbn [Z.add]. ring.
  - rewrite Z.pow_add_r by lia. ring.
  - replace (10 ^ M) with (10 ^ Z.pos p * 10 ^ (Z.neg p + M)).
    + ring.
    + rewrite <- Z.pow_add_r by lia. f_equal. lia.
Qed.

Lemma scale10_positive (a b k : Z) :
  0 < a -> 0 < b ->
  0 < fst (PyNum.scale10 a b k) /\ 0 < snd (PyNum.scale10 a b k).
Proof.
  intros Ha Hb. destruct k as [|p|p]; cbn [PyNum.scale10 fst snd].
  - rewrite Z.pow_0_r. lia.
  - split; [| exact Hb]. apply Z.mul_pos_pos; [exact Ha |].
    apply Z.pow_pos_nonneg; lia.
  - split; [exact Ha |]. apply Z.mul_pos_pos; [exact Hb |].
    apply Z.pow_pos_nonneg; lia.
Qed.

(** Comparisons carried across a proportion [x * B = y * A]. *)
Lemma cross_le (x y A B c : Z) :
  0 < x -> 0 < y -> 0 < A -> 0 < B -> 0 < c ->
  x * B = y * A ->
  (c * y <= x <-> c * B <= A).
Proof.
  intros Hx Hy HA HB Hc E. split; intros H.
  - apply (Z.mul_le_mono_pos_l _ _ y); [exact Hy |].
    rewrite <- E.
    replace (y * (c * B)) with ((c * y) * B) by ring.
    apply Z.mul_le_mono_nonneg_r; lia.
  - apply (Z.mul_le_mono_pos_r _ _ B); [exact HB |].
    rewrite E.
    replace (c * y * B) with (y * (c * B)) by ring.
    apply Z.mul_le_mono_nonneg_l; lia.
Qed.

Lemma cross_lt (x y A B c : Z) :
  0 < x -> 0 < y -> 0 < A -> 0 < B -> 0 < c ->
  x * B = y * A ->
  (x < c * y <-> A < c * B).
Proof.
  intros Hx Hy HA HB Hc E. split; intros H.
  - apply (Z.mul_lt_mono_pos_l y); [exact Hy |].
    rewrite <- E.
    replace (y * (c * B)) with ((c * y) * B) by ring.
    apply Z.mul_lt_mono_pos_r; lia.
  - apply (Z.mul_lt_mono_pos_r B); [exact HB |].
    rewrite E.
    replace (c * y * B) with (y * (c * B)) by ring.
    apply Z.mul_lt_mono_pos_l; lia.
Qed.

Lemma pow10_pos (k : Z) : 0 <= k -> 0 < 10 ^ k.
Proof. intros H. apply Z.pow_pos_nonneg; lia. Qed.

Lemma log10_floor_spec (a b M : Z) :
  0 < a -> 0 < b -> 0 <= M -> PyNum.ndigits a - PyNum.ndigits b <= M ->
  PyNum.log10_floor a b <= M
  /\ b * 10 ^ M <= a * 10 ^ (M - PyNum.log10_floor a b)
  /\ a * 10 ^ (M - PyNum.log10_floor a b) < 10 * (b * 10 ^ M).
Proof.
  intros Ha Hb HM Hk.
  destruct (ndigits_spec a Ha) as (Hla & Hal & Hau).
  destruct (ndigits_spec b Hb) as (Hlb & Hbl & Hbu).
  unfold PyNum.log10_floor.
  set (la := PyNum.ndigits a) in *. set (lb := PyNum.ndigits b) in *.
  set (k0 := la - lb) in *.
  pose proof (pow10_pos M HM) as HT.
  assert (HU : 0 < 10 ^ (M - k0)) by (apply pow10_pos; lia).
  assert (F1 : a * 10 ^ (M - k0) < 10 * (b * 10 ^ M)).
  { apply Z.lt_le_trans with (10 ^ la * 10 ^ (M - k0)).
    - apply Z.mul_lt_mono_pos_r; assumption.
    - rewrite <- Z.pow_add_r by lia.
      replace (la + (M - k0)) with (1 + (lb - 1) + M) by (unfold k0; lia).
      rewrite !Z.pow_add_r by lia. rewrite Z.pow_1_r.
      rewrite <- !Z.mul_assoc. apply Z.mul_le_mono_nonneg_l; [lia |].
      apply Z.mul_le_mono_nonneg_r; lia. }
  assert (F2 : b * 10 ^ M < a * (10 * 10 ^ (M - k0))).
  { apply Z.lt_le_trans with (10 ^ lb * 10 ^ M).
    - apply Z.mul_lt_mono_pos_r; assumption.
    - rewrite <- Z.pow_add_r by lia.
      replace (lb + M) with ((la - 1) + (1 + (M - k0))) by (unfold k0; lia).
      rewrite (Z.pow_add_r 10 (la - 1)) by lia.
      rewrite (Z.pow_add_r 10 1) by lia. rewrite Z.pow_1_r.
      apply Z.mul_le_mono_nonneg_r; [| exact Hal].
      apply Z.mul_nonneg_nonneg; lia. }
  pose proof (scale10_cross a b (- k0) M HM ltac:(lia)) as E.
  destruct (scale10_positive a b (- k0) Ha Hb) as [Hx Hy].
  destruct (PyNum.scale10 a b (- k0)) as [x y]. cbn [fst snd] in *.
  replace (- k0 + M) with (M - k0) in E by lia.
  assert (HA : 0 < a * 10 ^ (M - k0)) by (apply Z.mul_pos_pos; assumption).
  assert (HB : 0 < b * 10 ^ M) by (apply Z.mul_pos_pos; assumption).
  pose proof (cross_le x y _ _ 1 Hx Hy HA HB ltac:(lia) E) as Hc.
  rewrite !Z.mul_1_l in Hc.
  destruct (Z.leb_spec y x) as [Hyx|Hyx].
  - split; [lia |]. split; [now apply Hc | exact F1].
  - replace (M - (k0 - 1)) with (1 + (M - k0)) by lia.
    rewrite (Z.pow_add_r 10 1) by lia. rewrite Z.pow_1_r.
    split; [lia |]. split; [lia |].
    assert (a * 10 ^ (M - k0) < b * 10 ^ M).
    { apply Z.nle_gt. intros Hn. apply Hc in Hn. lia. }
    lia.
Qed.

Lemma mantissa_scaled (a b : Z) :
  0 < a -> 0 < b ->
  0 < snd (PyNum.scale10 a b (6 - PyNum.log10_floor a b))
  /\ 10 ^ 6 * snd (PyNum.scale10 a b (6 - PyNum.log10_floor a b))
     <= fst (PyNum.scale10 a b (6 - PyNum.log10_floor a b))
  /\ fst (PyNum.scale10 a b (6 - PyNum.log10_floor a b))
     < 10 ^ 7 * snd (PyNum.scale10 a b (6 - PyNum.log10_floor a b)).
Proof.
  intros Ha Hb.
  set (M := Z.max 0 (PyNum.ndigits a - PyNum.ndigits b)).
  assert (HM : 0 <= M) by lia.
  destruct (log10_floor_spec a b M Ha Hb HM ltac:(lia)) as (HK & Hlo & Hhi).
  set (K := PyNum.log10_floor a b) in *.
  pose proof (scale10_cross a b (6 - K) M HM ltac:(lia)) as E.
  destruct (scale10_positive a b (6 - K) Ha Hb) as [Hx Hy].
  destruct (PyNum.scale10 a b (6 - K)) as [x y]. cbn [fst snd] in *.
  replace (6 - K + M) with (6 + (M - K)) in E by lia.
  rewrite Z.pow_add_r in E by lia.
  pose proof (pow10_pos M HM) as HT.
  assert (HU : 0 < 10 ^ (M - K)) by (apply pow10_pos; lia).
  assert (HA : 0 < a * (10 ^ 6 * 10 ^ (M - K))).
  { apply Z.mul_pos_pos; [exact Ha |]. apply Z.mul_pos_pos; [reflexivity | exact HU]. }
  assert (HB : 0 < b * 10 ^ M) by (apply Z.mul_pos_pos; assumption).
  split; [exact Hy |]. split.
  - apply (cross_le x y _ _ (10 ^ 6) Hx Hy HA HB ltac:(reflexivity) E).
    replace (a * (10 ^ 6 * 10 ^ (M - K))) with (10 ^ 6 * (a * 10 ^ (M - K)))
      by ring.
    apply Z.mul_le_mono_nonneg_l; [discriminate | exact Hlo].
  - apply (cross_lt x y _ _ (10 ^ 7) Hx Hy HA HB ltac:(reflexivity) E).
    replace (a * (10 ^ 6 * 10 ^ (M - K))) with (10 ^ 6 * (a * 10 ^ (M - K)))
      by ring.
    change (10 ^ 7) with (10 ^ 6 * 10).
    rewrite <- Z.mul_assoc. apply Z.mul_lt_mono_pos_l; [reflexivity | exact Hhi].
Qed.

Lemma div_half_even_between (x y lo hi : Z) :
  0 < y -> lo * y <= x -> x < hi * y ->
  lo <= PyNum.div_half_even x y <= hi.
Proof.
  intros Hy Hlo Hhi. unfold PyNum.div_half_even.
  pose proof (Z_div_mod x y ltac:(lia)) as H.
  destruct (Z.div_eucl x y) as [q r]. destruct H as [E Hr].
  assert (lo <= q) by nia.
  assert (q + 1 <= hi) by nia.
  destruct (2 * r ?= y); [destruct (Z.even q) | |]; lia.
Qed.

Lemma seven_digits (n : Z) :
  10 ^ 6 <= n < 10 ^ 7 ->
  exists c0 c1 c2 c3 c4 c5 c6 : ascii,
    PyNum.dec n
    = String c0 (String c1 (String c2 (String c3 (String c4 (String c5
        (String c6 EmptyString))))))
    /\ all_digits (PyNum.dec n) = true.
Proof.
  intros [Hlo Hhi].
  assert (Hd : all_digits (PyNum.dec n) = true)
    by (apply dec_digits; change (10 ^ 6) with 1000000 in Hlo; lia).
  destruct n as [|p|p]; try (change (10 ^ 6) with 1000000 in Hlo; lia).
  destruct (dec_pos_length p) as (m & Hlen & Hml & Hmu).
  assert (Hm : m = 6%nat).
  { destruct (Z.lt_trichotomy (Z.of_nat m) 6) as [Hlt|[Heq|Hgt]].
    - assert (10 ^ Z.of_nat (S m) <= 10 ^ 6)
        by (apply Z.pow_le_mono_r; lia).
      lia.
    - lia.
    - assert (10 ^ 7 <= 10 ^ Z.of_nat m)
        by (apply Z.pow_le_mono_r; lia).
      lia. }
  subst m.
  destruct (PyNum.dec (Z.pos p)) as [|c0 [|c1 [|c2 [|c3 [|c4 [|c5 [|c6 [|c7 r]]]]]]]];
    try discriminate.
  exists c0, c1, c2, c3, c4, c5, c6. split; [reflexivity | exact Hd].
Qed.

Lemma digit_not_sign (c : ascii) :
  is_digit c = true -> Ascii.eqb c "+" = false /\ Ascii.eqb c "-" = false.
Proof.
  destruct c as [[] [] [] [] [] [] [] []]; intros H;
    try discriminate H; split; reflexivity.
Qed.

Lemma all_digits_append (s t : string) :
  all_digits (s ++ t) = all_digits s && all_digits t.
Proof.
  induction s as [|c s IH]; [reflexivity |].
  cbn [append all_digits]. rewrite IH. apply andb_assoc.
Qed.

Lemma all_digits_zeros (k : nat) : all_digits (PyNum.zeros k) = true.
Proof. induction k as [|k IH]; [reflexivity | exact IH]. Qed.

Lemma all_digits_no_plus (s : string) :
  all_digits s = true -> remove_char "+" s = s.
Proof.
  induction s as [|c s IH]; [reflexivity |].
  cbn [all_digits remove_char]. intros H.
  apply andb_prop in H as [Hc Hs].
  destruct (digit_not_sign c Hc) as [-> _]. now rewrite IH.
Qed.

Lemma all_digits_unsigned (s : string) :
  all_digits s = true -> unsigned s = s.
Proof.
  destruct s as [|c s]; [reflexivity |].
  cbn [all_digits unsigned]. intros H.
  apply andb_prop in H as [Hc _].
  now destruct (digit_not_sign c Hc) as [_ ->].
Qed.

Lemma length_zeros_append (k : nat) (s : string) :
  String.length (PyNum.zeros k ++ s) = (k + String.length s)%nat.
Proof. induction k as [|k IH]; [reflexivity |]. cbn. now rewrite IH. Qed.

Lemma zfill_digits (w : nat) (s : string) :
  all_digits s = true ->
  all_digits (PyNum.zfill w s) = true
  /\ (w <= String.length (PyNum.zfill w s))%nat.
Proof.
  intros H. unfold PyNum.zfill. split.
  - now rewrite all_digits_append, all_digits_zeros, H.
  - rewrite length_zeros_append. lia.
Qed.

(** The exponent that [exp_str] prints, and what is left of it without
    the plus sign. *)
Lemma exp_str_exponent (k : Z) : exponent (PyNum.exp_str k) = true.
Proof.
  unfold PyNum.exp_str.
  destruct (zfill_digits 2 (PyNum.dec (Z.abs k)))
    as [Hd Hl]; [apply dec_digits; lia |].
  apply Nat.leb_le in Hl.
  destruct (k <? 0); cbn [append exponent]; rewrite Hd, Hl; reflexivity.
Qed.

Lemma exp_str_without_plus (k : Z) :
  exponent_without_plus (remove_char "+" (PyNum.exp_str k)) = true.
Proof.
  unfold PyNum.exp_str, exponent_without_plus.
  destruct (zfill_digits 2 (PyNum.dec (Z.abs k)))
    as [Hd Hl]; [apply dec_digits; lia |].
  apply Nat.leb_le in Hl.
  destruct (k <? 0); cbn [append remove_char Ascii.eqb Bool.eqb];
    rewrite (all_digits_no_plus _ Hd).
  - cbn [unsigned Ascii.eqb Bool.eqb]. now rewrite Hd, Hl.
  - rewrite (all_digits_unsigned _ Hd). now rewrite Hd, Hl.
Qed.

(** The text that [sci6] prints for a positive fraction. *)
Lemma sci6_text (s : bool) (a b : Z) :
  0 < a -> 0 < b ->
  exists (c0 c1 c2 c3 c4 c5 c6 : ascii) (k : Z),
    all_digits (String c0 (String c1 (String c2 (String c3 (String c4
                  (String c5 (String c6 EmptyString))))))) = true
    /\ PyNum.sci6 s a b
       = PyNum.sign_str s
           ++ String c0 (String "." (String c1 (String c2 (String c3
                (String c4 (String c5 (String c6 (String "e"
                   (PyNum.exp_str k))))))))).
Proof.
  intros Ha Hb. unfold PyNum.sci6.
  destruct (mantissa_scaled a b Ha Hb) as (Hy & Hlo & Hhi).
  set (K := PyNum.log10_floor a b) in *.
  destruct (PyNum.scale10 a b (6 - K)) as [x y]. cbn [fst snd] in *.
  pose proof (div_half_even_between x y (10 ^ 6) (10 ^ 7) Hy Hlo Hhi) as Hn.
  set (n := PyNum.div_half_even x y) in *.
  assert (Hd : exists n' k', (if n =? 10 ^ 7 then (10 ^ 6, K + 1) else (n, K))
                             = (n', k') /\ 10 ^ 6 <= n' < 10 ^ 7).
  { destruct (Z.eqb_spec n (10 ^ 7)) as [E|E].
    - exists (10 ^ 6), (K + 1). split; [reflexivity |]. split; [lia | reflexivity].
    - exists n, K. split; [reflexivity | lia]. }
  destruct Hd as (n' & k' & -> & Hn').
  destruct (seven_digits n' Hn') as (c0 & c1 & c2 & c3 & c4 & c5 & c6 & E & Hdig).
  exists c0, c1, c2, c3, c4, c5, c6, k'.
  cbv zeta. rewrite E in *. split; [exact Hdig | reflexivity].
Qed.

Lemma sci6_scientific (s : bool) (a b : Z) :
  0 < a -> 0 < b -> scientific (PyNum.sci6 s a b) = true.
Proof.
  intros Ha Hb.
  destruct (sci6_text s a b Ha Hb)
    as (c0 & c1 & c2 & c3 & c4 & c5 & c6 & k & Hd & ->).
  cbn [all_digits] in Hd.
  repeat (apply andb_prop in Hd as [?H Hd]).
  unfold scientific, mantissa_then.
  assert (Hu : unsigned (PyNum.sign_str s ++ String c0
                 (String "." (String c1 (String c2 (String c3 (String c4
                    (String c5 (String c6 (String "e" (PyNum.exp_str k))))))))))
               = String c0
                 (String "." (String c1 (String c2 (String c3 (String c4
                    (String c5 (String c6 (String "e" (PyNum.exp_str k)))))))))).
  { destruct s; cbn [PyNum.sign_str append unsigned]; [reflexivity |].
    match goal with H : is_digit c0 = true |- _ =>
      now destruct (digit_not_sign c0 H) as [_ ->] end. }
  rewrite Hu.
  repeat match goal with H : is_digit _ = true |- _ => rewrite H; clear H end.
  rewrite exp_str_exponent. reflexivity.
Qed.

Lemma sci6_without_plus (s : bool) (a b : Z) :
  0 < a -> 0 < b ->
  scientific_without_plus (remove_char "+" (PyNum.sci6 s a b)) = true.
Proof.
  intros Ha Hb.
  destruct (sci6_text s a b Ha Hb)
    as (c0 & c1 & c2 & c3 & c4 & c5 & c6 & k & Hd & ->).
  cbn [all_digits] in Hd.
  repeat (apply andb_prop in Hd as [?H Hd]).
  unfold scientific_without_plus, mantissa_then.
  assert (Hu : unsigned (remove_char "+" (PyNum.sign_str s ++ String c0
                 (String "." (String c1 (String c2 (String c3 (String c4
                    (String c5 (String c6 (String "e" (PyNum.exp_str k)))))))))))
               = String c0
                 (String "." (String c1 (String c2 (String c3 (String c4
                    (String c5 (String c6 (String "e"
                       (remove_char "+" (PyNum.exp_str k))))))))))).
  { repeat match goal with H : is_digit ?c = true |- _ =>
      let Hp := fresh "Hp" in let Hm := fresh "Hm" in
      destruct (digit_not_sign c H) as [Hp Hm]; revert H Hp Hm end.
    intros.
    destruct s; cbn [PyNum.sign_str append remove_char unsigned];
      cbn [Ascii.eqb Bool.eqb];
      repeat match goal with H : Ascii.eqb _ "+" = false |- _ =>
               rewrite H; clear H end;
      cbn [remove_char unsigned Ascii.eqb Bool.eqb];
      [reflexivity |].
    cbn [unsigned].
    repeat match goal with H : Ascii.eqb _ "-" = false |- _ =>
             rewrite ?H; clear H end.
    reflexivity. }
  rewrite Hu.
  repeat match goal with H : is_digit _ = true |- _ => rewrite H; clear H end.
  rewrite exp_str_without_plus. reflexivity.
Qed.

Lemma ratio_positive (m : positive) (e : Z) :
  0 < fst (PyNum.ratio m e) /\ 0 < snd (PyNum.ratio m e).
Proof.
  destruct e as [|p|p]; cbn [PyNum.ratio fst snd].
  - rewrite Z.pow_0_r. lia.
  - split; [| lia]. apply Z.mul_pos_pos; [lia |].
    apply Z.pow_pos_nonneg; lia.
  - split; [lia |]. apply Z.pow_pos_nonneg; lia.
Qed.

Lemma float_format_e_scientific (f : spec_float) :
  finite_float f = true ->
  scientific (PyNum.float_format_e f) = true
  /\ scientific_without_plus (remove_char "+" (PyNum.float_format_e f)) = true.
Proof.
  destruct f as [s|s| |s m e]; intros H; try discriminate.
  - destruct s; split; reflexivity.
  - cbn [PyNum.float_format_e].
    destruct (ratio_positive m e) as [Ha Hb].
    destruct (PyNum.ratio m e) as [a b]. cbn [fst snd] in *.
    split; [now apply sci6_scientific | now apply sci6_without_plus].
Qed.

(** [float(n)] is never [nan]. *)
Lemma shr_1_nonneg (mrs : shr_record) :
  0 <= shr_m mrs -> 0 <= shr_m (shr_1 mrs).
Proof.
  destruct mrs as [m r s]. cbn [shr_m]. intros H.
  destruct m as [|[p|p|]|p]; cbn; lia.
Qed.

Lemma iter_pos_shr_1_nonneg (p : positive) (mrs : shr_record) :
  0 <= shr_m mrs -> 0 <= shr_m (iter_pos shr_1 p mrs).
Proof.
  revert mrs. induction p as [p IH|p IH|]; intros mrs H; cbn [iter_pos].
  - apply IH, IH. now apply shr_1_nonneg.
  - now apply IH, IH.
  - now apply shr_1_nonneg.
Qed.

Lemma shr_fexp_nonneg (pr em m e : Z) (l : location) :
  0 <= m -> 0 <= shr_m (fst (shr_fexp pr em m e l)).
Proof.
  intros H. unfold shr_fexp, shr.
  assert (H0 : 0 <= shr_m (shr_record_of_loc m l))
    by (destruct l as [|[]]; exact H).
  destruct (fexp pr em (Zdigits2 m + e) - e); cbn [fst]; try exact H0.
  now apply iter_pos_shr_1_nonneg.
Qed.

Lemma round_nearest_even_nonneg (m : Z) (l : location) :
  0 <= m -> 0 <= round_nearest_even m l.
Proof.
  intros H. destruct l as [|[]]; cbn [round_nearest_even]; try lia.
  destruct (Z.even m); lia.
Qed.

Lemma binary_round_aux_not_nan (pr em : Z) (sx : bool) (mx ex : Z) (l : location) :
  0 <= mx -> binary_round_aux pr em sx mx ex l <> S754_nan.
Proof.
  intros H. unfold binary_round_aux.
  pose proof (shr_fexp_nonneg pr em mx ex l H) as H1.
  destruct (shr_fexp pr em mx ex l) as [mrs' e']. cbn [fst] in H1.
  pose proof (shr_fexp_nonneg pr em _ e' loc_Exact
                (round_nearest_even_nonneg _ (loc_of_shr_record mrs') H1)) as H2.
  destruct (shr_fexp pr em (round_nearest_even (shr_m mrs') (loc_of_shr_record mrs')) e' loc_Exact)
    as [mrs'' e'']. cbn [fst] in H2.
  destruct (shr_m mrs'') as [|m|m]; try lia; try discriminate.
  destruct (e'' <=? em - pr); discriminate.
Qed.

Lemma float_of_Z_not_nan (n : Z) : PyNum.float_of_Z n <> S754_nan.
Proof.
  unfold PyNum.float_of_Z, binary_normalize, binary_round.
  destruct n as [|p|p]; try discriminate.
  - destruct (shl_align p 0 _) as [mz ez]. now apply binary_round_aux_not_nan.
  - destruct (shl_align p 0 _) as [mz ez]. now apply binary_round_aux_not_nan.
Qed.

Lemma finite_as_float (x : PyNum.pynum) :
  Accept.fits x = true -> finite x = true ->
  finite_float (Accept.as_float x) = true.
Proof.
  destruct x as [n|f]; cbn [Accept.fits Accept.as_float finite];
    [| intros _ H; exact H].
  intros H _. pose proof (float_of_Z_not_nan n) as Hn.
  destruct (PyNum.float_of_Z n); try reflexivity; try discriminate.
  now contradiction Hn.
Qed.

End Notation.

Section Claims.
Import PyNum Checks Syngine Accept.

Variable debug : bool.
Variables src_lon src_lat src_depth : pynum.
Variable mt : Moment.MomentTensor.
Variables rcv_lon rcv_lat : pynum.
Variable model : option string.
Variables stf duration : option pynum.
Variables gmt components : string.
Variable validate : bool.

Local Abbreviation call :=
  (get_recording_url debug src_lon src_lat src_depth mt rcv_lon rcv_lat
     model stf duration gmt components validate).

Local Abbreviation is_accepted :=
  (accepted debug src_lon src_lat src_depth mt rcv_lon rcv_lat stf duration
     gmt components validate = true).

Local Abbreviation readable_strings :=
  (has_char "&" (or_default model DEFAULT_MODEL) = false
   /\ has_char "&" components = false).

(** C1, as amended: the [sourcemomenttensor] parameter holds the six
    components of the moment tensor in the order radial-radial,
    theta-theta, phi-phi, radial-theta, phi-radial, theta-phi: the last
    two of the convention are exchanged. *)
Theorem moment_tensor_parameter :
  is_accepted ->
  exists url, call = Ret url
    /\ (exists front rest,
          url = front ++ "&sourcemomenttensor="
                  ++ six_text [Moment.rr mt; Moment.tt mt; Moment.pp mt;
                               Moment.rt mt; Moment.pr mt; Moment.tp mt]
                  ++ String "&" rest)
    /\ (readable_strings ->
        Url.param "sourcemomenttensor" url
        = Some (six_text [Moment.rr mt; Moment.tt mt; Moment.pp mt;
                          Moment.rt mt; Moment.pr mt; Moment.tp mt])).
Proof.
  intros Ha. destruct (accepted_name _ _ _ _ _ _ _ _ _ _ _ _ Ha) as [name Hn].
  eexists. split; [apply accepted_url; eassumption |]. split.
  - apply url_text_tensor.
  - intros [Hm Hc]. unfold Url.param.
    rewrite url_text_query; try assumption.
    + apply lookup_tensor.
    + now apply unit_name_amp with gmt.
Qed.

(** C2: each of the six components is printed by [{:e}] and every [+]
    is then removed.  A component that is a finite number (an [int], or a
    [float] that is neither [nan] nor infinite) is printed in
    scientific notation (a minus sign when it is negative, one digit, a
    point, six digits, [e], the sign of the exponent and at least two
    digits) and is left in that notation without the plus sign of the
    exponent; the value of the [sourcemomenttensor] parameter is the six
    texts joined by commas, and contains no [+]. *)
Theorem moment_tensor_without_plus :
  is_accepted ->
  exists url value, call = Ret url
    /\ value = remove_char "+" (sci (Moment.rr mt)) ++ ","
                 ++ remove_char "+" (sci (Moment.tt mt)) ++ ","
                 ++ remove_char "+" (sci (Moment.pp mt)) ++ ","
                 ++ remove_char "+" (sci (Moment.rt mt)) ++ ","
                 ++ remove_char "+" (sci (Moment.pr mt)) ++ ","
                 ++ remove_char "+" (sci (Moment.tp mt))
    /\ (forall x,
          In x [Moment.rr mt; Moment.tt mt; Moment.pp mt;
                Moment.rt mt; Moment.pr mt; Moment.tp mt] ->
          format_e x = Ret (sci x)
          /\ has_char "+" (remove_char "+" (sci x)) = false
          /\ (Scientific.finite x = true ->
              Scientific.scientific (sci x) = true
              /\ Scientific.scientific_without_plus
                   (remove_char "+" (sci x)) = true))
    /\ has_char "+" value = false
    /\ (exists front rest,
          url = front ++ "&sourcemomenttensor=" ++ value ++ String "&" rest)
    /\ (readable_strings ->
        Url.param "sourcemomenttensor" url = Some value).
Proof.
  intros Ha. destruct (accepted_name _ _ _ _ _ _ _ _ _ _ _ _ Ha) as [name Hn].
  assert (Hv : six_text [Moment.rr mt; Moment.tt mt; Moment.pp mt;
                         Moment.rt mt; Moment.pr mt; Moment.tp mt]
               = remove_char "+" (sci (Moment.rr mt)) ++ ","
                   ++ remove_char "+" (sci (Moment.tt mt)) ++ ","
                   ++ remove_char "+" (sci (Moment.pp mt)) ++ ","
                   ++ remove_char "+" (sci (Moment.rt mt)) ++ ","
                   ++ remove_char "+" (sci (Moment.pr mt)) ++ ","
                   ++ remove_char "+" (sci (Moment.tp mt))).
  { unfold six_text. cbn [map String.concat].
    now rewrite !remove_char_append. }
  assert (Hf : forall x,
             In x [Moment.rr mt; Moment.tt mt; Moment.pp mt;
                   Moment.rt mt; Moment.pr mt; Moment.tp mt] ->
             fits x = true).
  { pose proof Ha as H. unfold accepted in H.
    apply andb_prop in H as [H _]. apply andb_prop in H as [_ H].
    unfold mt_fits in H. do 5 (apply andb_prop in H as [H ?]).
    intros x [<-|[<-|[<-|[<-|[<-|[<-|[]]]]]]]; assumption. }
  eexists. eexists. split; [apply accepted_url; eassumption |].
  split; [reflexivity |]. split.
  - intros x Hx. split; [apply format_e_fits; now apply Hf |].
    split; [apply has_char_remove_char |].
    intros Hfin. apply float_format_e_scientific.
    apply finite_as_float; [now apply Hf | exact Hfin].
  - rewrite <- Hv. split; [apply has_char_remove_char |]. split.
    + apply url_text_tensor.
    + intros [Hm Hc]. unfold Url.param.
      rewrite url_text_query; try assumption.
      * apply lookup_tensor.
      * now apply unit_name_amp with gmt.
Qed.

(** C5: for the selectors [dis], [vel] and [acc] the URL ends with
    [units=displacement], [units=velocity] or [units=acceleration], then
    the components selector, then [format=miniseed]. *)
Theorem units_parameter (name : string) :
  In (gmt, name)
     [("dis", "displacement"); ("vel", "velocity"); ("acc", "acceleration")] ->
  is_accepted ->
  exists url, call = Ret url
    /\ (exists front,
          url = front ++ "&units=" ++ name ++ "&components=" ++ components
                  ++ "&format=miniseed")
    /\ (readable_strings ->
        Url.param "units" url = Some name
        /\ exists front,
             Url.query url
             = (front ++ [("units", name); ("components", components);
                          ("format", "miniseed")])%list).
Proof.
  intros Hin Ha.
  assert (Hn : dict_lookup UNITS_PARAMETER gmt = Some name).
  { destruct Hin as [[= <- <-]|[[= <- <-]|[[= <- <-]|[]]]]; reflexivity. }
  eexists. split; [apply accepted_url; eassumption |]. split.
  - apply url_text_end.
  - intros [Hm Hc]. unfold Url.param.
    rewrite url_text_query; try assumption;
      [|now apply unit_name_amp with gmt].
    split; [apply lookup_units | apply params_end].
Qed.

(** C9, as amended: the text [&sourcewidth=] with [stf] is written
    exactly when [stf] is not [None], and the text [&endtime=] with
    [duration] exactly when [duration] is not [None]; when neither the
    model nor the components selector contains an ampersand, the URL has
    a [sourcewidth] parameter exactly when [stf] is not [None], and its
    value is then [stf], and it has an [endtime] parameter exactly when
    [duration] is not [None], and its value is then [duration]. *)
Theorem optional_parameters :
  is_accepted ->
  exists url name, call = Ret url
    /\ url = endpoint ++ "model=" ++ or_default model DEFAULT_MODEL
               ++ source_text src_lon src_lat src_depth
               ++ tensor_text mt
               ++ match stf with
                  | Some n => "&sourcewidth=" ++ str n
                  | None => ""
                  end
               ++ receiver_text rcv_lon rcv_lat
               ++ match duration with
                  | Some d => "&endtime=" ++ str d
                  | None => ""
                  end
               ++ tail_text name components
    /\ (readable_strings ->
        Url.param "sourcewidth" url = option_map str stf
        /\ Url.param "endtime" url = option_map str duration).
Proof.
  intros Ha. destruct (accepted_name _ _ _ _ _ _ _ _ _ _ _ _ Ha) as [name Hn].
  eexists. exists name. split; [apply accepted_url; eassumption |]. split.
  - unfold url_text, optional. destruct stf, duration; reflexivity.
  - intros [Hm Hc]. unfold Url.param.
    rewrite url_text_query; try assumption;
      [|now apply unit_name_amp with gmt].
    split; [apply lookup_sourcewidth | apply lookup_endtime].
Qed.

End Claims.

Section Rejection.
Import PyNum Checks Syngine Accept.

Variable debug : bool.
Variables src_lon src_lat src_depth : pynum.
Variable mt : Moment.MomentTensor.
Variables rcv_lon rcv_lat : pynum.
Variable model : option string.
Variables stf duration : option pynum.
Variables gmt components : string.
Variable validate : bool.
Variable us : Units.UnitSystem.

Local Abbreviation call :=
  (get_recording_url debug src_lon src_lat src_depth mt rcv_lon rcv_lat
     model stf duration gmt components validate).

Local Abbreviation recording :=
  (get_recording debug us src_lon src_lat src_depth mt rcv_lon rcv_lat
     model stf duration gmt components validate).

Local Abbreviation the_checks :=
  (checks src_lon src_lat src_depth rcv_lon rcv_lat stf duration gmt
     components).

(** A call that returns a URL was accepted. *)
Lemma returned_accepted (url : string) :
  call = Ret url ->
  accepted debug src_lon src_lat src_depth mt rcv_lon rcv_lat stf duration
    gmt components validate = true.
Proof.
  intros H. unfold accepted.
  destruct (negb (validating debug validate) || the_checks) eqn:Hv.
  - revert H. unfold get_recording_url. rewrite (assertions_pass _ _ _ _ _ _ _ _ _ _ _ _ _ _ Hv).
    unfold mt_fits, Moment.get_six, format_f, format_e.
    destruct (fits src_lon) eqn:E1;
      [rewrite (to_float_fits _ E1) | rewrite (to_float_overflow _ E1); discriminate].
    destruct (fits src_lat) eqn:E2;
      [rewrite (to_float_fits _ E2) | rewrite (to_float_overflow _ E2); discriminate].
    cbn [bind].
    destruct (fits (Moment.rr mt)) eqn:F1;
      [rewrite (to_float_fits _ F1) | rewrite (to_float_overflow _ F1); discriminate].
    destruct (fits (Moment.tt mt)) eqn:F2;
      [rewrite (to_float_fits _ F2) | rewrite (to_float_overflow _ F2); discriminate].
    destruct (fits (Moment.pp mt)) eqn:F3;
      [rewrite (to_float_fits _ F3) | rewrite (to_float_overflow _ F3); discriminate].
    destruct (fits (Moment.rt mt)) eqn:F4;
      [rewrite (to_float_fits _ F4) | rewrite (to_float_overflow _ F4); discriminate].
    destruct (fits (Moment.pr mt)) eqn:F5;
      [rewrite (to_float_fits _ F5) | rewrite (to_float_overflow _ F5); discriminate].
    destruct (fits (Moment.tp mt)) eqn:F6;
      [rewrite (to_float_fits _ F6) | rewrite (to_float_overflow _ F6); discriminate].
    cbn [bind]. unfold dict_get, dict_contains.
    destruct (dict_lookup UNITS_PARAMETER gmt); [reflexivity | discriminate].
  - apply orb_false_elim in Hv as [Hv Hc].
    apply negb_false_iff in Hv.
    rewrite (rejected_by_assertion _ _ _ _ _ _ _ _ _ _ _ _ _ Hv Hc) in H.
    discriminate.
Qed.

(** A call that is not accepted raises. *)
Lemma not_accepted_raises :
  accepted debug src_lon src_lat src_depth mt rcv_lon rcv_lat stf duration
    gmt components validate = false ->
  exists e, call = Raise e.
Proof.
  intros Hna.
  pose proof (get_recording_url_io_free debug src_lon src_lat src_depth mt
                rcv_lon rcv_lat model stf duration gmt components validate)
    as Hio.
  destruct call as [url|e|u k|c k] eqn:E; try discriminate.
  - apply returned_accepted in E. congruence.
  - now exists e.
Qed.

(** When the builder raises, [get_recording] raises the same exception
    before any request is sent. *)
Lemma get_recording_raises (e : exn) :
  call = Raise e -> recording = Raise e.
Proof. intros H. unfold get_recording. now rewrite H. Qed.

(** The requests that are answered with a URL are the accepted ones. *)
Lemma accepted_iff_returns :
  accepted debug src_lon src_lat src_depth mt rcv_lon rcv_lat stf duration
    gmt components validate = true
  <-> exists url, call = Ret url.
Proof.
  split.
  - intros Ha.
    destruct (accepted_name _ _ _ _ _ _ _ _ _ _ _ _ Ha) as [name Hn].
    eexists. apply accepted_url; eassumption.
  - intros [url H]. now apply returned_accepted with url.
Qed.

(** For an accepted request [get_recording] does ask the outside world:
    it starts with the HTTP request for the URL. *)
Lemma get_recording_requests (url : string) :
  call = Ret url -> exists k, recording = HttpGet url k.
Proof.
  intros H. unfold get_recording. rewrite H. cbn [bind].
  unfold http_get. cbn [bind]. eexists. reflexivity.
Qed.

(** C3, as amended: with validation on, a longitude out of range, a depth
    that is not a positive number, or a duration that is given and not
    positive stops the call with [AssertionError]; no URL is returned. *)
Theorem out_of_range_rejected :
  validating debug validate = true ->
  is_lon src_lon = false \/ is_lon rcv_lon = false
  \/ is_pos_number src_depth = false
  \/ (exists d, duration = Some d /\ is_pos_number d = false) ->
  call = Raise AssertionError /\ forall url, call <> Ret url.
Proof.
  intros Hv Hbad.
  assert (Hc : the_checks = false).
  { unfold checks.
    destruct Hbad as [H|[H|[H|(d & -> & H)]]]; cbn [holds]; rewrite H;
      repeat first [reflexivity | rewrite andb_false_r | rewrite andb_false_l]. }
  rewrite (rejected_by_assertion _ _ _ _ _ _ _ _ _ _ _ _ _ Hv Hc).
  split; [reflexivity | discriminate].
Qed.

(** C4, as amended: with validation on, an unrecognised gmt selector, a
    components selector other than [ZRT] and [ZNE], a longitude out of
    range, a depth that is not positive or a duration that is given and
    not positive stops both functions with [AssertionError]; whatever
    [validate] is, an unrecognised gmt selector stops both with an
    exception.  Neither returns, and no request is sent. *)
Theorem invalid_request_fails :
  (validating debug validate = true
   /\ (dict_contains SI_UNITS gmt = false
       \/ tuple_contains ["ZRT"; "ZNE"] components = false
       \/ is_lon src_lon = false \/ is_lon rcv_lon = false
       \/ is_pos_number src_depth = false
       \/ (exists d, duration = Some d /\ is_pos_number d = false))
   -> call = Raise AssertionError /\ recording = Raise AssertionError)
  /\ (dict_contains UNITS_PARAMETER gmt = false ->
      exists e, call = Raise e /\ recording = Raise e).
Proof.
  split.
  - intros [Hv Hbad].
    assert (Hc : the_checks = false).
    { unfold checks.
      destruct Hbad as [H|[H|[H|[H|[H|(d & -> & H)]]]]]; cbn [holds];
        rewrite H;
        repeat first [reflexivity | rewrite andb_false_r | rewrite andb_false_l]. }
    pose proof (rejected_by_assertion debug src_lon src_lat src_depth mt
                  rcv_lon rcv_lat model stf duration gmt components validate
                  Hv Hc) as H.
    split; [exact H | now apply get_recording_raises].
  - intros Hg.
    destruct not_accepted_raises as [e He].
    + unfold accepted. rewrite Hg. apply andb_false_r.
    + exists e. split; [exact He | now apply get_recording_raises].
Qed.

End Rejection.

(** ** The claims at the sample request *)

Lemma sample_accepted :
  Accept.accepted true Sample.src_lon Sample.src_lat Sample.src_depth
    Sample.mt Sample.rcv_lon Sample.rcv_lat (Some (PyNum.PyInt 3))
    (Some Sample.duration) "acc" "ZNE" true = true.
Proof. vm_compute. reflexivity. Defined.

Lemma sample_readable :
  has_char "&" (Syngine.or_default None Syngine.DEFAULT_MODEL) = false
  /\ has_char "&" "ZNE" = false.
Proof. split; reflexivity. Defined.

(** The claim C1 fails at the sample moment tensor, whose components are
    1 to 6 in the order of the convention: the parameter ends with 6, 5. *)
Lemma tensor_order_counterexample :
  Syngine.get_recording_url true Sample.src_lon Sample.src_lat
    Sample.src_depth Sample.mt Sample.rcv_lon Sample.rcv_lat None None None
    "dis" "ZRT" true
  = Ret "http://service.iris.edu/irisws/syngine/1/query?model=ak135f_2s&sourcelongitude=4.350000&sourcelatitude=50.850000&sourcedepthinmeters=10000&sourcemomenttensor=1.000000e00,2.000000e00,3.000000e00,4.000000e00,6.000000e00,5.000000e00&receiverlongitude=-120.5&receiverlatitude=37.5&units=displacement&components=ZRT&format=miniseed"
  /\ Accept.six_text
       [Moment.rr Sample.mt; Moment.tt Sample.mt; Moment.pp Sample.mt;
        Moment.rt Sample.mt; Moment.tp Sample.mt; Moment.pr Sample.mt]
     = "1.000000e00,2.000000e00,3.000000e00,4.000000e00,5.000000e00,6.000000e00"
  /\ Url.param "sourcemomenttensor"
       "http://service.iris.edu/irisws/syngine/1/query?model=ak135f_2s&sourcelongitude=4.350000&sourcelatitude=50.850000&sourcedepthinmeters=10000&sourcemomenttensor=1.000000e00,2.000000e00,3.000000e00,4.000000e00,6.000000e00,5.000000e00&receiverlongitude=-120.5&receiverlatitude=37.5&units=displacement&components=ZRT&format=miniseed"
     <> Some (Accept.six_text
                [Moment.rr Sample.mt; Moment.tt Sample.mt; Moment.pp Sample.mt;
                 Moment.rt Sample.mt; Moment.tp Sample.mt; Moment.pr Sample.mt]).
Proof.
  split; [vm_compute; reflexivity |].
  split; [vm_compute; reflexivity |].
  vm_compute. discriminate.
Qed.

Lemma moment_tensor_parameter_witness :
  Accept.accepted true Sample.src_lon Sample.src_lat Sample.src_depth
    Sample.mt Sample.rcv_lon Sample.rcv_lat (Some (PyNum.PyInt 3))
    (Some Sample.duration) "acc" "ZNE" true = true
  /\ exists url,
       Syngine.get_recording_url true Sample.src_lon Sample.src_lat
         Sample.src_depth Sample.mt Sample.rcv_lon Sample.rcv_lat None
         (Some (PyNum.PyInt 3)) (Some Sample.duration) "acc" "ZNE" true
       = Ret url
       /\ Url.param "sourcemomenttensor" url
          = Some "1.000000e00,2.000000e00,3.000000e00,4.000000e00,6.000000e00,5.000000e00".
Proof.
  split; [exact sample_accepted |].
  destruct (moment_tensor_parameter true Sample.src_lon Sample.src_lat
              Sample.src_depth Sample.mt Sample.rcv_lon Sample.rcv_lat None
              (Some (PyNum.PyInt 3)) (Some Sample.duration) "acc" "ZNE" true
              sample_accepted)
    as (url & Hurl & _ & Hparam).
  exists url. split; [exact Hurl |].
  rewrite (Hparam sample_readable). vm_compute. reflexivity.
Defined.

Lemma mixed_accepted :
  Accept.accepted true Sample.src_lon Sample.src_lat Sample.src_depth
    Sample.mt_mixed Sample.rcv_lon Sample.rcv_lat (Some (PyNum.PyInt 3))
    (Some Sample.duration) "acc" "ZNE" true = true.
Proof. vm_compute. reflexivity. Defined.

Lemma moment_tensor_without_plus_witness :
  Accept.accepted true Sample.src_lon Sample.src_lat Sample.src_depth
    Sample.mt_mixed Sample.rcv_lon Sample.rcv_lat (Some (PyNum.PyInt 3))
    (Some Sample.duration) "acc" "ZNE" true = true
  /\ exists url,
       Syngine.get_recording_url true Sample.src_lon Sample.src_lat
         Sample.src_depth Sample.mt_mixed Sample.rcv_lon Sample.rcv_lat None
         (Some (PyNum.PyInt 3)) (Some Sample.duration) "acc" "ZNE" true
       = Ret url
       /\ Url.param "sourcemomenttensor" url
          = Some "-3.899600e00,1.234568e07,2.500000e-07,0.000000e00,1.000000e22,1.000000e01"
       /\ has_char "+"
            "-3.899600e00,1.234568e07,2.500000e-07,0.000000e00,1.000000e22,1.000000e01"
          = false
       /\ PyNum.format_e (Moment.rr Sample.mt_mixed) = Ret "-3.899600e+00"
       /\ Scientific.scientific "-3.899600e+00" = true
       /\ Scientific.scientific_without_plus "-3.899600e00" = true.
Proof.
  split; [exact mixed_accepted |].
  destruct (moment_tensor_without_plus true Sample.src_lon Sample.src_lat
              Sample.src_depth Sample.mt_mixed Sample.rcv_lon Sample.rcv_lat
              None (Some (PyNum.PyInt 3)) (Some Sample.duration) "acc" "ZNE"
              true mixed_accepted)
    as (url & value & Hurl & Hvalue & Hsix & Hplus & _ & Hparam).
  assert (Hlit : value
                 = "-3.899600e00,1.234568e07,2.500000e-07,0.000000e00,1.000000e22,1.000000e01")
    by (rewrite Hvalue; vm_compute; reflexivity).
  assert (Hsci : Accept.sci (Moment.rr Sample.mt_mixed) = "-3.899600e+00")
    by (vm_compute; reflexivity).
  destruct (Hsix (Moment.rr Sample.mt_mixed) (or_introl eq_refl))
    as (Hfmt & _ & Hshape).
  destruct (Hshape eq_refl) as [Hs Hw].
  rewrite Hsci in Hfmt, Hs, Hw. rewrite Hlit in Hplus, Hparam.
  exists url. split; [exact Hurl |].
  split; [exact (Hparam sample_readable) |].
  split; [exact Hplus |]. split; [exact Hfmt |].
  split; [exact Hs | exact Hw].
Defined.

Lemma units_parameter_witness :
  In ("acc", "acceleration")
     [("dis", "displacement"); ("vel", "velocity"); ("acc", "acceleration")]
  /\ Accept.accepted true Sample.src_lon Sample.src_lat Sample.src_depth
       Sample.mt Sample.rcv_lon Sample.rcv_lat (Some (PyNum.PyInt 3))
       (Some Sample.duration) "acc" "ZNE" true = true
  /\ exists url,
       Syngine.get_recording_url true Sample.src_lon Sample.src_lat
         Sample.src_depth Sample.mt Sample.rcv_lon Sample.rcv_lat None
         (Some (PyNum.PyInt 3)) (Some Sample.duration) "acc" "ZNE" true
       = Ret url
       /\ (exists front,
             url = front ++ "&units=acceleration&components=ZNE&format=miniseed")
       /\ Url.param "units" url = Some "acceleration".
Proof.
  assert (Hin : In ("acc", "acceleration")
                  [("dis", "displacement"); ("vel", "velocity");
                   ("acc", "acceleration")])
    by (right; right; left; reflexivity).
  split; [exact Hin |]. split; [exact sample_accepted |].
  destruct (units_parameter true Sample.src_lon Sample.src_lat
              Sample.src_depth Sample.mt Sample.rcv_lon Sample.rcv_lat None
              (Some (PyNum.PyInt 3)) (Some Sample.duration) "acc" "ZNE" true
              "acceleration" Hin sample_accepted)
    as (url & Hurl & Hend & Hparam).
  exists url. split; [exact Hurl |]. split; [exact Hend |].
  exact (proj1 (Hparam sample_readable)).
Defined.

Lemma optional_parameters_witness :
  Accept.accepted true Sample.src_lon Sample.src_lat Sample.src_depth
    Sample.mt Sample.rcv_lon Sample.rcv_lat (Some (PyNum.PyInt 3)) None
    "acc" "ZNE" true = true
  /\ exists url,
       Syngine.get_recording_url true Sample.src_lon Sample.src_lat
         Sample.src_depth Sample.mt Sample.rcv_lon Sample.rcv_lat None
         (Some (PyNum.PyInt 3)) None "acc" "ZNE" true
       = Ret url
       /\ Url.param "sourcewidth" url = Some "3"
       /\ Url.param "endtime" url = None.
Proof.
  assert (H : Accept.accepted true Sample.src_lon Sample.src_lat
                Sample.src_depth Sample.mt Sample.rcv_lon Sample.rcv_lat
                (Some (PyNum.PyInt 3)) None "acc" "ZNE" true = true)
    by (vm_compute; reflexivity).
  split; [exact H |].
  destruct (optional_parameters true Sample.src_lon Sample.src_lat
              Sample.src_depth Sample.mt Sample.rcv_lon Sample.rcv_lat None
              (Some (PyNum.PyInt 3)) None "acc" "ZNE" true H)
    as (url & name & Hurl & _ & Hparam).
  exists url. split; [exact Hurl |].
  exact (Hparam sample_readable).
Defined.

(** The claim C9 fails at the model [prem&sourcewidth=9&endtime=7]: with
    neither [stf] nor [duration] the URL has a [sourcewidth] and an
    [endtime] parameter. *)
Lemma injected_parameters_counterexample :
  Syngine.get_recording_url true Sample.src_lon Sample.src_lat
    Sample.src_depth Sample.mt Sample.rcv_lon Sample.rcv_lat
    (Some "prem&sourcewidth=9&endtime=7") None None "dis" "ZRT" true
  = Ret "http://service.iris.edu/irisws/syngine/1/query?model=prem&sourcewidth=9&endtime=7&sourcelongitude=4.350000&sourcelatitude=50.850000&sourcedepthinmeters=10000&sourcemomenttensor=1.000000e00,2.000000e00,3.000000e00,4.000000e00,6.000000e00,5.000000e00&receiverlongitude=-120.5&receiverlatitude=37.5&units=displacement&components=ZRT&format=miniseed"
  /\ Url.param "sourcewidth"
       "http://service.iris.edu/irisws/syngine/1/query?model=prem&sourcewidth=9&endtime=7&sourcelongitude=4.350000&sourcelatitude=50.850000&sourcedepthinmeters=10000&sourcemomenttensor=1.000000e00,2.000000e00,3.000000e00,4.000000e00,6.000000e00,5.000000e00&receiverlongitude=-120.5&receiverlatitude=37.5&units=displacement&components=ZRT&format=miniseed"
     = Some "9"
  /\ Url.param "endtime"
       "http://service.iris.edu/irisws/syngine/1/query?model=prem&sourcewidth=9&endtime=7&sourcelongitude=4.350000&sourcelatitude=50.850000&sourcedepthinmeters=10000&sourcemomenttensor=1.000000e00,2.000000e00,3.000000e00,4.000000e00,6.000000e00,5.000000e00&receiverlongitude=-120.5&receiverlatitude=37.5&units=displacement&components=ZRT&format=miniseed"
     = Some "7"
  /\ Url.param "sourcewidth"
       "http://service.iris.edu/irisws/syngine/1/query?model=prem&sourcewidth=9&endtime=7&sourcelongitude=4.350000&sourcelatitude=50.850000&sourcedepthinmeters=10000&sourcemomenttensor=1.000000e00,2.000000e00,3.000000e00,4.000000e00,6.000000e00,5.000000e00&receiverlongitude=-120.5&receiverlatitude=37.5&units=displacement&components=ZRT&format=miniseed"
     <> option_map PyNum.str (@None PyNum.pynum)
  /\ Url.param "endtime"
       "http://service.iris.edu/irisws/syngine/1/query?model=prem&sourcewidth=9&endtime=7&sourcelongitude=4.350000&sourcelatitude=50.850000&sourcedepthinmeters=10000&sourcemomenttensor=1.000000e00,2.000000e00,3.000000e00,4.000000e00,6.000000e00,5.000000e00&receiverlongitude=-120.5&receiverlatitude=37.5&units=displacement&components=ZRT&format=miniseed"
     <> option_map PyNum.str (@None PyNum.pynum).
Proof.
  split; [vm_compute; reflexivity |].
  split; [vm_compute; reflexivity |].
  split; [vm_compute; reflexivity |].
  split; vm_compute; discriminate.
Qed.

(** The claim C3 fails at a source longitude of 200 degrees: the call
    raises [AssertionError], not [InvalidGeophysicalInputError]. *)
Lemma error_kind_counterexample :
  Checks.is_lon (PyNum.PyInt 200) = false
  /\ Syngine.get_recording_url true (PyNum.PyInt 200) Sample.src_lat
       Sample.src_depth Sample.mt Sample.rcv_lon Sample.rcv_lat None None None
       "dis" "ZRT" true
     = Raise AssertionError
  /\ Syngine.get_recording_url true (PyNum.PyInt 200) Sample.src_lat
       Sample.src_depth Sample.mt Sample.rcv_lon Sample.rcv_lat None None None
       "dis" "ZRT" true
     <> Raise InvalidGeophysicalInputError.
Proof.
  split; [reflexivity |]. split; [vm_compute; reflexivity |].
  vm_compute. discriminate.
Qed.

Lemma out_of_range_rejected_witness :
  Accept.validating true true = true
  /\ Checks.is_lon (PyNum.PyInt 200) = false
  /\ Syngine.get_recording_url true (PyNum.PyInt 200) Sample.src_lat
       Sample.src_depth Sample.mt Sample.rcv_lon Sample.rcv_lat None None None
       "dis" "ZRT" true
     = Raise AssertionError.
Proof.
  assert (Hv : Accept.validating true true = true) by reflexivity.
  assert (Hl : Checks.is_lon (PyNum.PyInt 200) = false) by reflexivity.
  split; [exact Hv |]. split; [exact Hl |].
  exact (proj1 (out_of_range_rejected true (PyNum.PyInt 200) Sample.src_lat
                  Sample.src_depth Sample.mt Sample.rcv_lon Sample.rcv_lat
                  None None None "dis" "ZRT" true Hv (or_introl Hl))).
Defined.

(** The claim C4 fails when [validate] is [False]: a components selector
    that is neither [ZRT] nor [ZNE] yields a URL. *)
Lemma unvalidated_counterexample :
  tuple_contains ["ZRT"; "ZNE"] "XYZ" = false
  /\ Syngine.get_recording_url true Sample.src_lon Sample.src_lat
       Sample.src_depth Sample.mt Sample.rcv_lon Sample.rcv_lat None None None
       "dis" "XYZ" false
     = Ret "http://service.iris.edu/irisws/syngine/1/query?model=ak135f_2s&sourcelongitude=4.350000&sourcelatitude=50.850000&sourcedepthinmeters=10000&sourcemomenttensor=1.000000e00,2.000000e00,3.000000e00,4.000000e00,6.000000e00,5.000000e00&receiverlongitude=-120.5&receiverlatitude=37.5&units=displacement&components=XYZ&format=miniseed".
Proof. split; [reflexivity | vm_compute; reflexivity]. Qed.

Lemma invalid_request_fails_witness :
  (Accept.validating true true = true
   /\ tuple_contains ["ZRT"; "ZNE"] "XYZ" = false
   /\ Syngine.get_recording true Units.SI Sample.src_lon Sample.src_lat
        Sample.src_depth Sample.mt Sample.rcv_lon Sample.rcv_lat None None
        None "dis" "XYZ" true
      = Raise AssertionError)
  /\ (dict_contains Syngine.UNITS_PARAMETER "jerk" = false
      /\ exists e,
           Syngine.get_recording true Units.SI Sample.src_lon Sample.src_lat
             Sample.src_depth Sample.mt Sample.rcv_lon Sample.rcv_lat None
             None None "jerk" "ZRT" false
           = Raise e).
Proof.
  assert (Hv : Accept.validating true true = true) by reflexivity.
  assert (Hc : tuple_contains ["ZRT"; "ZNE"] "XYZ" = false) by reflexivity.
  assert (Hg : dict_contains Syngine.UNITS_PARAMETER "jerk" = false)
    by reflexivity.
  split.
  - split; [exact Hv |]. split; [exact Hc |].
    exact (proj2 (proj1 (invalid_request_fails true Sample.src_lon
                           Sample.src_lat Sample.src_depth Sample.mt
                           Sample.rcv_lon Sample.rcv_lat None None None "dis"
                           "XYZ" true Units.SI)
                   (conj Hv (or_intror (or_introl Hc))))).
  - split; [exact Hg |].
    destruct (proj2 (invalid_request_fails true Sample.src_lon Sample.src_lat
                       Sample.src_depth Sample.mt Sample.rcv_lon
                       Sample.rcv_lat None None None "jerk" "ZRT" false
                       Units.SI) Hg)
      as (e & _ & He).
    now exists e.
Defined.

(** ** What the assertions let through *)

Lemma is_lon_int (n : Z) :
  Checks.is_lon (PyNum.PyInt n) = true <-> -180 <= n <= 180.
Proof.
  unfold Checks.is_lon, PyNum.Z_le, PyNum.le_Z. cbn [Checks.is_number PyNum.compare_Z andb].
  destruct (Z.compare_spec n (-180)), (Z.compare_spec n 180);
    cbn [andb]; split; intros ?; try discriminate; try reflexivity; lia.
Qed.

Lemma is_lat_int (n : Z) :
  Checks.is_lat (PyNum.PyInt n) = true <-> -90 <= n <= 90.
Proof.
  unfold Checks.is_lat, PyNum.Z_le, PyNum.le_Z. cbn [Checks.is_number PyNum.compare_Z andb].
  destruct (Z.compare_spec n (-90)), (Z.compare_spec n 90);
    cbn [andb]; split; intros ?; try discriminate; try reflexivity; lia.
Qed.

(** The latitudes are tested with [is_lon]: a source latitude of 100
    degrees, which [is_lat] refuses, passes validation. *)
Remark latitude_tested_as_longitude :
  Checks.is_lat (PyNum.PyInt 100) = false
  /\ Syngine.get_recording_url true Sample.src_lon (PyNum.PyInt 100)
       Sample.src_depth Sample.mt Sample.rcv_lon Sample.rcv_lat None None None
       "dis" "ZRT" true
     = Ret "http://service.iris.edu/irisws/syngine/1/query?model=ak135f_2s&sourcelongitude=4.350000&sourcelatitude=100.000000&sourcedepthinmeters=10000&sourcemomenttensor=1.000000e00,2.000000e00,3.000000e00,4.000000e00,6.000000e00,5.000000e00&receiverlongitude=-120.5&receiverlatitude=37.5&units=displacement&components=ZRT&format=miniseed".
Proof. split; [reflexivity | vm_compute; reflexivity]. Qed.

(** Under [python -O] the assertions are dropped: the same call with a
    source longitude of 200 degrees returns a URL. *)
Remark assertions_dropped :
  Checks.is_lon (PyNum.PyInt 200) = false
  /\ Syngine.get_recording_url false (PyNum.PyInt 200) Sample.src_lat
       Sample.src_depth Sample.mt Sample.rcv_lon Sample.rcv_lat None None None
       "dis" "ZRT" true
     = Ret "http://service.iris.edu/irisws/syngine/1/query?model=ak135f_2s&sourcelongitude=200.000000&sourcelatitude=50.850000&sourcedepthinmeters=10000&sourcemomenttensor=1.000000e00,2.000000e00,3.000000e00,4.000000e00,6.000000e00,5.000000e00&receiverlongitude=-120.5&receiverlatitude=37.5&units=displacement&components=ZRT&format=miniseed".
Proof. split; [reflexivity | vm_compute; reflexivity]. Qed.

(** ** The order on floats and [max] *)

Section FloatOrder.

Lemma SFcompare_antisym (x y : spec_float) :
  SFcompare y x = option_map CompOpp (SFcompare x y).
Proof.
  destruct x as [sx|sx| |sx mx ex], y as [sy|sy| |sy my ey]; simpl;
    try (destruct sx); try (destruct sy); try reflexivity.
  - rewrite (Z.compare_antisym ex ey).
    destruct (ex ?= ey); simpl; try reflexivity.
    rewrite CompOpp_involutive, Pos.compare_cont_antisym. reflexivity.
  - rewrite (Z.compare_antisym ex ey).
    destruct (ex ?= ey); simpl; try reflexivity.
    rewrite Pos.compare_cont_antisym. reflexivity.
Qed.

Lemma SFleb_not_SFltb (x y : spec_float) :
  SFleb x y = true -> SFltb y x = false.
Proof.
  unfold SFleb, SFltb. rewrite (SFcompare_antisym x y).
  now destruct (SFcompare x y) as [[]|].
Qed.

Lemma SFcompare_Eq_finite (x : spec_float) (s : bool) (m : positive) (e : Z) :
  SFcompare x (S754_finite s m e) = Some Eq -> x = S754_finite s m e.
Proof.
  destruct x as [sx|sx| |sx mx ex]; simpl;
    try (destruct sx); try (destruct s); try discriminate.
  - destruct (Z.compare_spec ex e) as [->| |]; try discriminate.
    intros H. f_equal. apply Pos.compare_eq.
    change (mx ?= m)%positive with (Pos.compare_cont Eq mx m).
    destruct (Pos.compare_cont Eq mx m); try discriminate; reflexivity.
  - destruct (Z.compare_spec ex e) as [->| |]; try discriminate.
    intros H. f_equal. apply Pos.compare_eq.
    change (mx ?= m)%positive with (Pos.compare_cont Eq mx m).
    destruct (Pos.compare_cont Eq mx m); try discriminate; reflexivity.
Qed.

Lemma SFleb_not_lt_finite (x : spec_float) (s : bool) (m : positive) (e : Z) :
  SFleb x (S754_finite s m e) = true ->
  SFltb x (S754_finite s m e) = false ->
  x = S754_finite s m e.
Proof.
  unfold SFleb, SFltb. intros Hle Hlt. apply SFcompare_Eq_finite.
  destruct (SFcompare x (S754_finite s m e)) as [[]|];
    try discriminate; reflexivity.
Qed.

(** [max] of a sequence with a largest item [p] that is finite is [p]. *)
Lemma max_from_largest (p : spec_float) (s : bool) (m : positive) (e : Z)
    (xs : list spec_float) :
  p = S754_finite s m e ->
  forall cur,
    SFleb cur p = true ->
    Forall (fun x => SFleb x p = true) xs ->
    cur = p \/ In p xs ->
    Recordings.max_from cur xs = p.
Proof.
  intros Hp. induction xs as [|x xs IH]; intros cur Hcur Hall Hin.
  - destruct Hin as [H|[]]. exact H.
  - inversion_clear Hall as [|? ? Hx Hxs].
    cbn [Recordings.max_from]. apply IH; [| exact Hxs |].
    + now destruct (SFltb cur x).
    + destruct Hin as [->|[->|Hin]].
      * left. now rewrite (SFleb_not_SFltb _ _ Hx).
      * left. destruct (SFltb cur p) eqn:E; [reflexivity |].
        rewrite Hp in *. now apply SFleb_not_lt_finite.
      * now right.
Qed.

Lemma py_max_largest (p : spec_float) (s : bool) (m : positive) (e : Z)
    (xs : list spec_float) :
  p = S754_finite s m e ->
  Forall (fun x => SFleb x p = true) xs ->
  In p xs ->
  Recordings.py_max xs = Ret p.
Proof.
  intros Hp Hall Hin. destruct xs as [|x xs]; [contradiction |].
  inversion_clear Hall as [|? ? Hx Hxs].
  cbn [Recordings.py_max]. f_equal.
  apply (max_from_largest p s m e xs Hp x Hx Hxs).
  destruct Hin as [->|Hin]; [now left | now right].
Qed.

End FloatOrder.

(** ** The Seismogram of the scenario *)

Section Scenario.

Variable us : Units.UnitSystem.

Hypothesis si_acceleration :
  dict_lookup us "m/s2" = Some (Units.mkUnit Units.acceleration Units.one).

Lemma kind_of_acceleration : Units.kind_of us "m/s2" = Ret Units.acceleration.
Proof. unfold Units.kind_of, Units.unit_get. now rewrite si_acceleration. Qed.

Lemma convert_same (v : spec_float) :
  Units.convert us v "m/s2" "m/s2"
  = Ret (SFmul PyNum.prec PyNum.emax v
           (SFdiv PyNum.prec PyNum.emax Units.one Units.one)).
Proof. unfold Units.convert, Units.unit_get. now rewrite si_acceleration. Qed.

Lemma pgm_value :
  PyNum.lit 38996 4 = S754_finite false 8781118553446993 (-51).
Proof. vm_compute. reflexivity. Qed.

Lemma pgm_times_one :
  SFmul PyNum.prec PyNum.emax (PyNum.lit 38996 4)
    (SFdiv PyNum.prec PyNum.emax Units.one Units.one)
  = PyNum.lit 38996 4.
Proof. vm_compute. reflexivity. Qed.

Lemma sample_interval_positive :
  SFltb (S754_zero false) (PyNum.lit 5 3) = true.
Proof. vm_compute. reflexivity. Qed.

End Scenario.

(** C7: a Seismogram built with [time_delta = 0.005], unit ['m/s2'] and
    amplitudes whose largest absolute value is 3.8996 has
    [get_pgm(None) == 3.8996], [get_pgm('m/s2') == 3.8996] and
    [gmt == 'acceleration']. *)
Theorem seismogram_scenario (us : Units.UnitSystem) (amps : list spec_float) :
  dict_lookup us "m/s2" = Some (Units.mkUnit Units.acceleration Units.one) ->
  Forall (fun a => SFleb (SFabs a) (PyNum.lit 38996 4) = true) amps ->
  Exists (fun a => SFabs a = PyNum.lit 38996 4) amps ->
  exists s,
    Recordings.Seismogram_init us (PyNum.lit 5 3) amps "m/s2" = Ret s
    /\ Recordings.amplitudes s = amps
    /\ Recordings.get_pgm us s None = Ret (PyNum.lit 38996 4)
    /\ Recordings.get_pgm us s (Some "m/s2") = Ret (PyNum.lit 38996 4)
    /\ Recordings.gmt us s = Ret "acceleration".
Proof.
  intros Hus Hall Hex.
  assert (Hmax : Recordings.py_max (map SFabs amps) = Ret (PyNum.lit 38996 4)).
  { apply (py_max_largest _ false 8781118553446993 (-51)).
    - apply pgm_value.
    - apply Forall_map. exact Hall.
    - apply Exists_exists in Hex as (a & Hin & Ha).
      rewrite <- Ha. now apply in_map. }
  exists (Recordings.mkSeismogram (PyNum.lit 5 3) amps "m/s2").
  split.
  - unfold Recordings.Seismogram_init.
    rewrite sample_interval_positive. cbn [negb].
    destruct amps as [|a amps']; [inversion Hex |].
    now rewrite (kind_of_acceleration us Hus).
  - split; [reflexivity |].
    unfold Recordings.get_pgm, Recordings.gmt.
    cbn [Recordings.amplitudes Recordings.unit].
    rewrite Hmax. cbn [bind].
    rewrite (convert_same us Hus), pgm_times_one, (kind_of_acceleration us Hus).
    repeat split; reflexivity.
Qed.

Lemma seismogram_scenario_witness :
  dict_lookup Units.SI "m/s2"
  = Some (Units.mkUnit Units.acceleration Units.one)
  /\ Forall (fun a => SFleb (SFabs a) (PyNum.lit 38996 4) = true)
       Sample.amplitudes
  /\ Exists (fun a => SFabs a = PyNum.lit 38996 4) Sample.amplitudes
  /\ exists s,
       Recordings.Seismogram_init Units.SI (PyNum.lit 5 3) Sample.amplitudes
         "m/s2" = Ret s
       /\ Recordings.amplitudes s = Sample.amplitudes
       /\ Recordings.get_pgm Units.SI s None = Ret (PyNum.lit 38996 4)
       /\ Recordings.get_pgm Units.SI s (Some "m/s2")
          = Ret (PyNum.lit 38996 4)
       /\ Recordings.gmt Units.SI s = Ret "acceleration".
Proof.
  assert (H1 : dict_lookup Units.SI "m/s2"
               = Some (Units.mkUnit Units.acceleration Units.one))
    by reflexivity.
  assert (H2 : Forall (fun a => SFleb (SFabs a) (PyNum.lit 38996 4) = true)
                 Sample.amplitudes)
    by (repeat constructor).
  assert (H3 : Exists (fun a => SFabs a = PyNum.lit 38996 4) Sample.amplitudes)
    by (unfold Sample.amplitudes; do 2 apply Exists_cons_tl;
        apply Exists_cons_hd; vm_compute; reflexivity).
  split; [exact H1 |]. split; [exact H2 |]. split; [exact H3 |].
  exact (seismogram_scenario Units.SI Sample.amplitudes H1 H2 H3).
Defined.

(** ** The Recording that [get_recording] returns *)

Section Retrieval.
Import PyNum Syngine.

Variable us : Units.UnitSystem.

Hypothesis si_units_known :
  forall u, In u ["m"; "m/s"; "m/s2"] -> dict_contains us u = true.

Lemma from_trace_well_formed (t : Trace) (u : string) :
  Answer.well_formed t = true ->
  In u ["m"; "m/s"; "m/s2"] ->
  Recordings.from_trace us t u = Ret (Answer.seismogram_of u t).
Proof.
  unfold Answer.well_formed, Recordings.from_trace, Recordings.Seismogram_init.
  intros Hw Hu. apply andb_prop in Hw as [Hd Hdata]. rewrite Hd. cbn [negb].
  unfold Answer.seismogram_of.
  destruct (data t) as [|a amps]; [discriminate |].
  apply si_units_known in Hu. unfold dict_contains in Hu.
  unfold Units.kind_of, Units.unit_get.
  destruct (dict_lookup us u); [reflexivity | discriminate].
Qed.

Lemma si_unit_of_selector (gmt name : string) :
  dict_lookup UNITS_PARAMETER gmt = Some name ->
  exists u, dict_lookup SI_UNITS gmt = Some u
            /\ In (gmt, u) [("dis", "m"); ("vel", "m/s"); ("acc", "m/s2")]
            /\ In u ["m"; "m/s"; "m/s2"].
Proof.
  intros H. apply unit_name_of_selector in H.
  destruct H as [[-> _]|[[-> _]|[-> _]]].
  - exists "m". cbn. auto.
  - exists "m/s". cbn. auto 6.
  - exists "m/s2". cbn. auto 6.
Qed.

Variable debug : bool.
Variables src_lon src_lat src_depth : pynum.
Variable mt : Moment.MomentTensor.
Variables rcv_lon rcv_lat : pynum.
Variable model : option string.
Variables stf duration : option pynum.
Variables gmt components : string.
Variable validate : bool.
Variable w : world.

Local Abbreviation call :=
  (get_recording_url debug src_lon src_lat src_depth mt rcv_lon rcv_lat
     model stf duration gmt components validate).

Local Abbreviation recording :=
  (get_recording debug us src_lon src_lat src_depth mt rcv_lon rcv_lat
     model stf duration gmt components validate).

(** After the request is answered and the stream is read, the rest of
    [get_recording] runs on the stream. *)
Lemma get_recording_run (url : string) (content : bytes) (s : Stream)
    (u : string) :
  call = Ret url ->
  http w url = Ok content ->
  mseed w content = Ok s ->
  dict_lookup SI_UNITS gmt = Some u ->
  run w recording
  = run w (cs <- mapM (fun ct => sm <- Recordings.from_trace us (snd ct) u ;;
                                 Ret (fst ct, sm))
                   (combine (chars components) s) ;;
           r <- Recordings.Recording_init (dict_of_pairs cs) ;;
           Ret r).
Proof.
  intros Hurl Hhttp Hread Hu. unfold get_recording.
  rewrite Hurl. cbn [bind]. unfold http_get, read_mseed.
  cbn [bind run]. rewrite Hhttp. cbn [of_result bind run].
  rewrite Hread. cbn [of_result bind].
  unfold dict_get. rewrite Hu. reflexivity.
Qed.

Lemma consistent_same_shape (u : string) (a b : Trace) :
  Answer.same_shape a b = true ->
  Recordings.consistent (Answer.seismogram_of u a) (Answer.seismogram_of u b)
  = true.
Proof. intros H. exact H. Qed.

Lemma dict_of_three {V : Type} (a b c : string) (x y z : V) :
  String.eqb a b = false -> String.eqb a c = false ->
  String.eqb b c = false ->
  dict_of_pairs [(a, x); (b, y); (c, z)] = [(a, x); (b, y); (c, z)].
Proof.
  intros Hab Hac Hbc. unfold dict_of_pairs.
  cbn [fold_left dict_set fst snd]. rewrite Hab. cbn [dict_set].
  now rewrite Hac, Hbc.
Qed.

(** C6: when the request is answered with a stream of three traces of one
    shape, [get_recording] returns the Recording whose Seismograms carry
    the SI unit of the gmt selector and are keyed by the characters of
    the components selector, paired in order with the traces. *)
Theorem recording_components (url : string) (content : bytes)
    (t1 t2 t3 : Trace) (more : Stream) :
  call = Ret url ->
  components = "ZRT" \/ components = "ZNE" ->
  http w url = Ok content ->
  mseed w content = Ok (t1 :: t2 :: t3 :: more) ->
  Answer.well_formed t1 = true ->
  Answer.well_formed t2 = true ->
  Answer.well_formed t3 = true ->
  Answer.same_shape t2 t1 = true ->
  Answer.same_shape t3 t1 = true ->
  exists u,
    In (gmt, u) [("dis", "m"); ("vel", "m/s"); ("acc", "m/s2")]
    /\ run w recording
       = Ok (Recordings.mkRecording
               (combine (chars components)
                  (map (Answer.seismogram_of u) [t1; t2; t3]))).
Proof.
  intros Hurl Hc Hhttp Hread W1 W2 W3 S2 S3.
  pose proof (returned_accepted _ _ _ _ _ _ _ _ _ _ _ _ _ _ Hurl) as Ha.
  destruct (accepted_name _ _ _ _ _ _ _ _ _ _ _ _ Ha) as [name Hn].
  destruct (si_unit_of_selector _ _ Hn) as (u & Hu & Hin & Hsi).
  exists u. split; [exact Hin |].
  rewrite (get_recording_run url content _ u Hurl Hhttp Hread Hu).
  pose proof (consistent_same_shape u _ _ S2) as C2.
  pose proof (consistent_same_shape u _ _ S3) as C3.
  destruct Hc as [-> | ->]; cbn [chars combine mapM snd fst map];
    rewrite !from_trace_well_formed by assumption; cbn [bind];
    rewrite dict_of_three by reflexivity;
    unfold Recordings.Recording_init; cbn [dict_keys map fst forallb snd];
    rewrite C2, C3; reflexivity.
Qed.

End Retrieval.

Lemma si_units_in_SI (u : string) :
  In u ["m"; "m/s"; "m/s2"] -> dict_contains Units.SI u = true.
Proof.
  intros [<-|[<-|[<-|[]]]]; reflexivity.
Defined.

Lemma recording_components_witness :
  Syngine.get_recording_url true Sample.src_lon Sample.src_lat
    Sample.src_depth Sample.mt Sample.rcv_lon Sample.rcv_lat None
    (Some (PyNum.PyInt 3)) (Some Sample.duration) "acc" "ZNE" true
  = Ret "http://service.iris.edu/irisws/syngine/1/query?model=ak135f_2s&sourcelongitude=4.350000&sourcelatitude=50.850000&sourcedepthinmeters=10000&sourcemomenttensor=1.000000e00,2.000000e00,3.000000e00,4.000000e00,6.000000e00,5.000000e00&sourcewidth=3&receiverlongitude=-120.5&receiverlatitude=37.5&endtime=2.5&units=acceleration&components=ZNE&format=miniseed"
  /\ exists u,
       In ("acc", u) [("dis", "m"); ("vel", "m/s"); ("acc", "m/s2")]
       /\ run Sample.answering
            (Syngine.get_recording true Units.SI Sample.src_lon Sample.src_lat
               Sample.src_depth Sample.mt Sample.rcv_lon Sample.rcv_lat None
               (Some (PyNum.PyInt 3)) (Some Sample.duration) "acc" "ZNE" true)
          = Ok (Recordings.mkRecording
                  [("Z", Answer.seismogram_of u Sample.trace);
                   ("N", Answer.seismogram_of u Sample.trace);
                   ("E", Answer.seismogram_of u Sample.trace)]).
Proof.
  assert (Hurl :
    Syngine.get_recording_url true Sample.src_lon Sample.src_lat
      Sample.src_depth Sample.mt Sample.rcv_lon Sample.rcv_lat None
      (Some (PyNum.PyInt 3)) (Some Sample.duration) "acc" "ZNE" true
    = Ret "http://service.iris.edu/irisws/syngine/1/query?model=ak135f_2s&sourcelongitude=4.350000&sourcelatitude=50.850000&sourcedepthinmeters=10000&sourcemomenttensor=1.000000e00,2.000000e00,3.000000e00,4.000000e00,6.000000e00,5.000000e00&sourcewidth=3&receiverlongitude=-120.5&receiverlatitude=37.5&endtime=2.5&units=acceleration&components=ZNE&format=miniseed")
    by (vm_compute; reflexivity).
  split; [exact Hurl |].
  assert (Hw : Answer.well_formed Sample.trace = true)
    by (vm_compute; reflexivity).
  assert (Hs : Answer.same_shape Sample.trace Sample.trace = true)
    by (vm_compute; reflexivity).
  exact (recording_components Units.SI si_units_in_SI true Sample.src_lon
           Sample.src_lat Sample.src_depth Sample.mt Sample.rcv_lon
           Sample.rcv_lat None (Some (PyNum.PyInt 3)) (Some Sample.duration)
           "acc" "ZNE" true Sample.answering _ [] Sample.trace Sample.trace
           Sample.trace [] Hurl (or_intror eq_refl) eq_refl eq_refl
           Hw Hw Hw Hs Hs).
Defined.

(** * Further properties of the request builder *)

Section Outcomes.
Import PyNum Checks Syngine Accept.

Variable debug : bool.
Variables src_lon src_lat src_depth : pynum.
Variable mt : Moment.MomentTensor.
Variables rcv_lon rcv_lat : pynum.
Variable model : option string.
Variables stf duration : option pynum.
Variables gmt components : string.
Variable validate : bool.

Local Abbreviation call :=
  (get_recording_url debug src_lon src_lat src_depth mt rcv_lon rcv_lat
     model stf duration gmt components validate).

Local Abbreviation the_checks :=
  (checks src_lon src_lat src_depth rcv_lon rcv_lat stf duration gmt
     components).

Local Abbreviation all_fit :=
  (fits src_lon && fits src_lat && mt_fits mt).

Local Abbreviation assertions_hold :=
  (negb (validating debug validate) || the_checks = true).

(** Once the assertions are passed, a number that does not fit stops the
    call with [OverflowError]. *)
Lemma overflow_after_assertions :
  assertions_hold -> all_fit = false -> call = Raise OverflowError.
Proof.
  intros Hv Hf. unfold get_recording_url.
  rewrite (assertions_pass _ _ _ _ _ _ _ _ _ _ _ _ _ _ Hv).
  unfold mt_fits in Hf. unfold Moment.get_six, format_f, format_e.
  destruct (fits src_lon) eqn:E1;
    [rewrite (to_float_fits _ E1) | now rewrite (to_float_overflow _ E1)].
  destruct (fits src_lat) eqn:E2;
    [rewrite (to_float_fits _ E2) | now rewrite (to_float_overflow _ E2)].
  cbn [bind].
  destruct (fits (Moment.rr mt)) eqn:F1;
    [rewrite (to_float_fits _ F1) | now rewrite (to_float_overflow _ F1)].
  destruct (fits (Moment.tt mt)) eqn:F2;
    [rewrite (to_float_fits _ F2) | now rewrite (to_float_overflow _ F2)].
  destruct (fits (Moment.pp mt)) eqn:F3;
    [rewrite (to_float_fits _ F3) | now rewrite (to_float_overflow _ F3)].
  destruct (fits (Moment.rt mt)) eqn:F4;
    [rewrite (to_float_fits _ F4) | now rewrite (to_float_overflow _ F4)].
  destruct (fits (Moment.pr mt)) eqn:F5;
    [rewrite (to_float_fits _ F5) | now rewrite (to_float_overflow _ F5)].
  destruct (fits (Moment.tp mt)) eqn:F6;
    [discriminate | now rewrite (to_float_overflow _ F6)].
Qed.

(** Once the assertions are passed and the numbers are printed, an
    unknown selector stops the call with [KeyError]. *)
Lemma key_error_after_printing :
  assertions_hold -> all_fit = true ->
  dict_lookup UNITS_PARAMETER gmt = None ->
  call = Raise (KeyError gmt).
Proof.
  intros Hv Hf Hg. unfold get_recording_url.
  rewrite (assertions_pass _ _ _ _ _ _ _ _ _ _ _ _ _ _ Hv).
  unfold mt_fits in Hf.
  do 2 (apply andb_prop in Hf as [Hf ?]).
  match goal with M : _ && fits (Moment.tp mt) = true |- _ =>
    do 5 (apply andb_prop in M as [M ?]) end.
  rewrite !format_f_fits by assumption. cbn [bind].
  unfold Moment.get_six.
  rewrite !format_e_fits by assumption. cbn [bind].
  unfold dict_get. now rewrite Hg.
Qed.

End Outcomes.

Section Coverage.
Import PyNum Checks Syngine Accept.

Variable debug : bool.
Variables src_lon src_lat src_depth : pynum.
Variable mt : Moment.MomentTensor.
Variables rcv_lon rcv_lat : pynum.
Variable model : option string.
Variables stf duration : option pynum.
Variables gmt components : string.
Variable validate : bool.

Local Abbreviation call :=
  (get_recording_url debug src_lon src_lat src_depth mt rcv_lon rcv_lat
     model stf duration gmt components validate).

Local Abbreviation the_checks :=
  (checks src_lon src_lat src_depth rcv_lon rcv_lat stf duration gmt
     components).

Lemma accepted_from_parts (name : string) :
  negb (validating debug validate) || the_checks = true ->
  fits src_lon && fits src_lat && mt_fits mt = true ->
  dict_lookup UNITS_PARAMETER gmt = Some name ->
  accepted debug src_lon src_lat src_depth mt rcv_lon rcv_lat stf duration
    gmt components validate = true.
Proof.
  intros Hp Hf Hg. apply andb_prop in Hf as [Hf Hm].
  apply andb_prop in Hf as [H1 H2].
  unfold accepted, dict_contains. now rewrite Hp, H1, H2, Hm, Hg.
Qed.

(** X1: the outcome of every call, in the order in which the code can
    fail: a failed assertion first, then a number too large for a float,
    then an unknown gmt selector; otherwise the URL. *)
Theorem outcome_order :
  call =
  if validating debug validate && negb the_checks then Raise AssertionError
  else if negb (fits src_lon && fits src_lat && mt_fits mt)
  then Raise OverflowError
  else match dict_lookup UNITS_PARAMETER gmt with
       | None => Raise (KeyError gmt)
       | Some name =>
           Ret (url_text src_lon src_lat src_depth mt rcv_lon rcv_lat model
                  stf duration name components)
       end.
Proof.
  destruct (validating debug validate) eqn:Hv; cbn [andb].
  - destruct the_checks eqn:Hc; cbn [negb].
    + assert (Hp : negb (validating debug validate) || the_checks = true)
        by (rewrite Hc; apply orb_true_r).
      destruct (fits src_lon && fits src_lat && mt_fits mt) eqn:Hf; cbn [negb].
      * destruct (dict_lookup UNITS_PARAMETER gmt) as [name|] eqn:Hg.
        -- apply accepted_url; [| exact Hg].
           now apply accepted_from_parts with name.
        -- now apply key_error_after_printing.
      * now apply overflow_after_assertions.
    + now apply rejected_by_assertion.
  - assert (Hp : negb (validating debug validate) || the_checks = true)
      by (now rewrite Hv).
    destruct (fits src_lon && fits src_lat && mt_fits mt) eqn:Hf; cbn [negb].
    + destruct (dict_lookup UNITS_PARAMETER gmt) as [name|] eqn:Hg.
      * apply accepted_url; [| exact Hg].
        now apply accepted_from_parts with name.
      * now apply key_error_after_printing.
    + now apply overflow_after_assertions.
Qed.

(** X2: validation only filters: a URL that a call returns is the URL
    that the same call returns with [validate=False], whether or not the
    interpreter keeps assertions. *)
Theorem validation_only_filters (url : string) :
  call = Ret url ->
  forall d : bool,
    get_recording_url d src_lon src_lat src_depth mt rcv_lon rcv_lat model
      stf duration gmt components false = Ret url.
Proof.
  intros H d.
  pose proof (returned_accepted _ _ _ _ _ _ _ _ _ _ _ _ _ _ H) as Ha.
  destruct (accepted_name _ _ _ _ _ _ _ _ _ _ _ _ Ha) as [name Hn].
  rewrite (accepted_url _ _ _ _ _ _ _ model _ _ _ _ _ name Ha Hn) in H.
  injection H as <-.
  apply accepted_url; [| exact Hn].
  unfold accepted in *. unfold validating. rewrite andb_false_r. cbn [negb orb].
  do 4 (apply andb_prop in Ha as [Ha ?]). clear Ha.
  repeat match goal with E : _ = true |- _ => rewrite E; clear E end.
  reflexivity.
Qed.

(** X3: when the interpreter drops assertions, [validate=True] is the
    same as [validate=False]. *)
Theorem stripped_assertions_skip_validation (d : bool) :
  get_recording_url false src_lon src_lat src_depth mt rcv_lon rcv_lat model
    stf duration gmt components validate
  = get_recording_url d src_lon src_lat src_depth mt rcv_lon rcv_lat model
      stf duration gmt components false.
Proof.
  unfold get_recording_url.
  rewrite (assertions_pass false src_lon src_lat src_depth mt rcv_lon rcv_lat
             model stf duration gmt components validate) by reflexivity.
  reflexivity.
Qed.

End Coverage.

Section Texts.
Import PyNum Checks Syngine Accept.

Variable debug : bool.
Variables src_lon src_lat src_depth : pynum.
Variable mt : Moment.MomentTensor.
Variables rcv_lon rcv_lat : pynum.
Variable model : option string.
Variables stf duration : option pynum.
Variables gmt components : string.
Variable validate : bool.

Local Abbreviation call :=
  (get_recording_url debug src_lon src_lat src_depth mt rcv_lon rcv_lat
     model stf duration gmt components validate).

Local Abbreviation is_accepted :=
  (accepted debug src_lon src_lat src_depth mt rcv_lon rcv_lat stf duration
     gmt components validate = true).

(** X4: an empty model string is treated as no model: the call is the
    call with [model=None]. *)
Theorem empty_model_is_default :
  get_recording_url debug src_lon src_lat src_depth mt rcv_lon rcv_lat
    (Some "") stf duration gmt components validate
  = get_recording_url debug src_lon src_lat src_depth mt rcv_lon rcv_lat
      None stf duration gmt components validate.
Proof.
  unfold get_recording_url. rewrite !model_assertion. reflexivity.
Qed.

(** X5: the URL of an accepted request is the endpoint followed by its
    parameters, rendered in order and joined by ampersands; when neither
    the model nor the components selector contains an ampersand, reading
    the URL gives exactly these parameters back, in this order. *)
Theorem url_renders_parameters :
  is_accepted ->
  exists url name,
    call = Ret url
    /\ dict_lookup UNITS_PARAMETER gmt = Some name
    /\ url = endpoint
               ++ Url.render
                    (parameters src_lon src_lat src_depth mt rcv_lon rcv_lat
                       model stf duration name components)
    /\ (has_char "&" (or_default model DEFAULT_MODEL) = false ->
        has_char "&" components = false ->
        Url.query url
        = parameters src_lon src_lat src_depth mt rcv_lon rcv_lat model stf
            duration name components).
Proof.
  intros Ha. destruct (accepted_name _ _ _ _ _ _ _ _ _ _ _ _ Ha) as [name Hn].
  eexists. exists name. split; [apply accepted_url; eassumption |].
  split; [exact Hn |]. split; [apply url_text_render |].
  intros Hm Hc. apply url_text_query; try assumption.
  now apply unit_name_amp with gmt.
Qed.

(** X6: the model is not escaped: of a model that contains an ampersand
    the URL gives the receiving end only the part before the first
    ampersand as the model. *)
Theorem model_cut_at_ampersand (a b : string) :
  is_accepted ->
  model = Some (a ++ "&" ++ b) ->
  has_char "&" a = false ->
  exists url, call = Ret url /\ Url.param "model" url = Some a.
Proof.
  intros Ha Hm Hamp. destruct (accepted_name _ _ _ _ _ _ _ _ _ _ _ _ Ha) as [name Hn].
  eexists. split; [apply accepted_url; eassumption |].
  assert (Hd : or_default model DEFAULT_MODEL = a ++ String "&" b).
  { rewrite Hm. now destruct a. }
  unfold url_text. rewrite Hd, !append_assoc.
  change (String "&" b ++ ?x) with (String "&" (b ++ x)).
  now apply param_model.
Qed.

(** X7: what validation guarantees of a returned URL: when the
    assertions are tested, both longitudes and both latitudes passed
    [is_lon], the depth is a positive number, [stf] and [duration] are
    absent or positive, the gmt selector is a key of [SI_UNITS] and the
    components selector is [ZRT] or [ZNE]. *)
Theorem validated_url_guarantees (url : string) :
  validating debug validate = true ->
  call = Ret url ->
  is_lon src_lon = true /\ is_lon src_lat = true
  /\ is_pos_number src_depth = true
  /\ is_lon rcv_lon = true /\ is_lon rcv_lat = true
  /\ holds is_pos_integer stf = true
  /\ holds is_pos_number duration = true
  /\ dict_contains SI_UNITS gmt = true
  /\ (components = "ZRT" \/ components = "ZNE").
Proof.
  intros Hv H.
  pose proof (returned_accepted _ _ _ _ _ _ _ _ _ _ _ _ _ _ H) as Ha.
  unfold accepted in Ha. rewrite Hv in Ha. cbn [negb orb] in Ha.
  do 4 (apply andb_prop in Ha as [Ha _]).
  unfold checks in Ha. do 8 (apply andb_prop in Ha as [Ha ?]).
  repeat split; try assumption.
  match goal with C : tuple_contains _ components = true |- _ =>
    unfold tuple_contains in C; cbn [existsb] in C;
    apply orb_true_iff in C as [C|C]; [left | right];
    [| rewrite orb_false_r in C]; now apply String.eqb_eq in C
  end.
Qed.

(** X8: the removal of [+] covers the moment tensor only: a [+] in the
    model or in the printed depth (a float from [1e16] on is printed with
    an exponent [e+]) stays in the URL. *)
Theorem plus_kept_outside_tensor :
  is_accepted ->
  has_char "+" (or_default model DEFAULT_MODEL) = true
  \/ has_char "+" (str src_depth) = true ->
  exists url, call = Ret url /\ has_char "+" url = true.
Proof.
  intros Ha Hp. destruct (accepted_name _ _ _ _ _ _ _ _ _ _ _ _ Ha) as [name Hn].
  eexists. split; [apply accepted_url; eassumption |].
  unfold url_text, source_text. rewrite !has_char_append.
  destruct Hp as [Hp|Hp]; rewrite Hp; now rewrite !orb_true_r.
Qed.

End Texts.

(** * Further properties of the retrieval *)

Lemma requests_io_free {A : Type} (w : world) (p : prog A) :
  io_free p = true -> requests w p = [].
Proof. destruct p; simpl; intros H; try discriminate; reflexivity. Qed.

Lemma mapM_io_free {A B : Type} (f : A -> prog B) (xs : list A) :
  (forall x, io_free (f x) = true) -> io_free (mapM f xs) = true.
Proof.
  intros Hf. induction xs as [|x xs IH]; [reflexivity |].
  cbn [mapM]. apply io_free_bind; [apply Hf | intros y].
  apply io_free_bind; [exact IH | reflexivity].
Qed.

Lemma from_trace_io_free (us : Units.UnitSystem) (t : Trace) (u : string) :
  io_free (Recordings.from_trace us t u) = true.
Proof.
  unfold Recordings.from_trace, Recordings.Seismogram_init.
  destruct (negb (SFltb (S754_zero false) (delta t))); [reflexivity |].
  destruct (data t); [reflexivity |].
  unfold Units.kind_of, Units.unit_get.
  now destruct (dict_lookup us u).
Qed.

Lemma Recording_init_io_free (cs : dict Recordings.Seismogram) :
  io_free (Recordings.Recording_init cs) = true.
Proof.
  unfold Recordings.Recording_init. destruct cs as [|[k s0] rest]; [reflexivity |].
  destruct (negb _); [reflexivity |]. now destruct (negb _).
Qed.

(** What [get_recording] does with the stream asks nothing more of the
    outside world. *)
Lemma stream_to_recording_io_free (us : Units.UnitSystem) (gmt : string)
    (pairs : list (string * Trace)) :
  io_free
    (u <- dict_get Syngine.SI_UNITS gmt ;;
     cs <- mapM (fun ct => sm <- Recordings.from_trace us (snd ct) u ;;
                           Ret (fst ct, sm)) pairs ;;
     r <- Recordings.Recording_init (dict_of_pairs cs) ;;
     Ret r) = true.
Proof.
  apply io_free_bind; [apply dict_get_io_free | intros u].
  apply io_free_bind.
  - apply mapM_io_free. intros ct.
    apply io_free_bind; [apply from_trace_io_free | reflexivity].
  - intros cs. apply io_free_bind; [apply Recording_init_io_free | reflexivity].
Qed.

Lemma combine_firstn {A B : Type} (xs : list A) (ys : list B) :
  combine xs ys = combine xs (firstn (length xs) ys).
Proof.
  revert ys. induction xs as [|x xs IH]; intros ys; [reflexivity |].
  destruct ys as [|y ys]; [reflexivity |]. cbn [combine length firstn].
  now rewrite <- IH.
Qed.

Lemma length_chars (s : string) : length (chars s) = String.length s.
Proof. induction s as [|c s IH]; simpl; [reflexivity | now rewrite IH]. Qed.

Section Retrieval2.
Import PyNum Syngine.

Variable debug : bool.
Variable us : Units.UnitSystem.
Variables src_lon src_lat src_depth : pynum.
Variable mt : Moment.MomentTensor.
Variables rcv_lon rcv_lat : pynum.
Variable model : option string.
Variables stf duration : option pynum.
Variables gmt components : string.
Variable validate : bool.

Local Abbreviation call :=
  (get_recording_url debug src_lon src_lat src_depth mt rcv_lon rcv_lat
     model stf duration gmt components validate).

Local Abbreviation recording :=
  (get_recording debug us src_lon src_lat src_depth mt rcv_lon rcv_lat
     model stf duration gmt components validate).

(** X9: [get_recording] sends one HTTP request, for the URL that the
    builder returns, and none when the builder raises; whatever the
    answer is, no second request follows. *)
Theorem one_request_or_none (w : world) :
  requests w recording
  = match call with
    | Ret url => [url]
    | _ => []
    end.
Proof.
  pose proof (get_recording_url_io_free debug src_lon src_lat src_depth mt
                rcv_lon rcv_lat model stf duration gmt components validate)
    as Hio.
  unfold get_recording.
  destruct call as [url|e|u k|c k]; try discriminate; [| reflexivity].
  cbn [bind]. unfold http_get. cbn [bind requests]. f_equal.
  destruct (http w url) as [content|e]; [| reflexivity].
  cbn [of_result bind]. unfold read_mseed. cbn [bind requests].
  destruct (mseed w content) as [s|e]; [| reflexivity].
  cbn [of_result bind]. apply requests_io_free, stream_to_recording_io_free.
Qed.

(** X10: an exception of the HTTP client or of the miniSEED reader is
    the exception of [get_recording]. *)
Theorem outside_failures_propagate (w : world) (url : string) (e : exn) :
  call = Ret url ->
  http w url = Err e
  \/ (exists content, http w url = Ok content /\ mseed w content = Err e) ->
  run w recording = Err e.
Proof.
  intros Hurl H. unfold get_recording. rewrite Hurl. cbn [bind].
  unfold http_get. cbn [bind run].
  destruct H as [Hh|(content & Hh & Hr)]; rewrite Hh; [reflexivity |].
  cbn [of_result bind]. unfold read_mseed. cbn [bind run].
  now rewrite Hr.
Qed.

(** X11: the traces are paired with the characters of the components
    selector and the surplus is ignored: two streams that agree on their
    first [len(components)] traces give the same result. *)
Theorem surplus_traces_ignored (w1 w2 : world) (url : string)
    (content1 content2 : bytes) (s1 s2 : Stream) :
  call = Ret url ->
  http w1 url = Ok content1 -> mseed w1 content1 = Ok s1 ->
  http w2 url = Ok content2 -> mseed w2 content2 = Ok s2 ->
  firstn (String.length components) s1 = firstn (String.length components) s2 ->
  run w1 recording = run w2 recording.
Proof.
  intros Hurl Hh1 Hr1 Hh2 Hr2 Hs.
  assert (Hrun : forall w content s,
            http w url = Ok content -> mseed w content = Ok s ->
            run w recording
            = run w (u <- dict_get SI_UNITS gmt ;;
                     cs <- mapM (fun ct =>
                                   sm <- Recordings.from_trace us (snd ct) u ;;
                                   Ret (fst ct, sm))
                             (combine (chars components) s) ;;
                     r <- Recordings.Recording_init (dict_of_pairs cs) ;;
                     Ret r)).
  { intros w content s Hh Hr. unfold get_recording. rewrite Hurl. cbn [bind].
    unfold http_get, read_mseed. cbn [bind run]. rewrite Hh.
    cbn [of_result bind run]. now rewrite Hr. }
  rewrite (Hrun w1 content1 s1 Hh1 Hr1), (Hrun w2 content2 s2 Hh2 Hr2).
  rewrite (combine_firstn (chars components) s1),
    (combine_firstn (chars components) s2), length_chars, Hs.
  apply io_free_run, stream_to_recording_io_free.
Qed.

End Retrieval2.

(** * The mapping from component codes to Seismograms *)

Lemma dict_lookup_set {V : Type} (d : dict V) (k k' : string) (v : V) :
  dict_lookup (dict_set d k v) k'
  = if String.eqb k k' then Some v else dict_lookup d k'.
Proof.
  induction d as [|[k0 v0] d IH]; [reflexivity |].
  cbn [dict_set]. destruct (String.eqb_spec k0 k) as [->|Hne]; cbn [dict_lookup].
  - now destruct (String.eqb k k').
  - rewrite IH. destruct (String.eqb_spec k0 k') as [->|Hne']; [|reflexivity].
    destruct (String.eqb_spec k k'); [congruence | reflexivity].
Qed.

Lemma dict_keys_set {V : Type} (d : dict V) (k k' : string) (v : V) :
  In k' (dict_keys (dict_set d k v)) <-> k' = k \/ In k' (dict_keys d).
Proof.
  induction d as [|[k0 v0] d IH]; cbn [dict_set dict_keys map fst In].
  - intuition congruence.
  - destruct (String.eqb_spec k0 k) as [->|Hne];
      cbn [dict_keys map fst In]; [intuition congruence |].
    unfold dict_keys in IH. rewrite IH. intuition congruence.
Qed.

Lemma dict_set_NoDup {V : Type} (d : dict V) (k : string) (v : V) :
  NoDup (dict_keys d) -> NoDup (dict_keys (dict_set d k v)).
Proof.
  induction d as [|[k0 v0] d IH]; cbn [dict_set dict_keys map fst]; intros H.
  - constructor; [intros [] | constructor].
  - inversion_clear H as [|? ? Hnot Hd].
    destruct (String.eqb_spec k0 k) as [->|Hne]; cbn [map fst].
    + now constructor.
    + constructor; [| now apply IH].
      intros Hin. apply (dict_keys_set d k k0 v) in Hin.
      destruct Hin as [Heq|Hin]; [congruence | contradiction].
Qed.

Lemma dict_lookup_app {V : Type} (d1 d2 : dict V) (k : string) :
  dict_lookup (d1 ++ d2)%list k
  = match dict_lookup d1 k with
    | Some v => Some v
    | None => dict_lookup d2 k
    end.
Proof.
  induction d1 as [|[k0 v0] d1 IH]; [reflexivity |].
  cbn [app dict_lookup]. now destruct (String.eqb k0 k).
Qed.

Lemma fold_dict_set {V : Type} (kvs : list (string * V)) (d : dict V)
    (k : string) :
  let built := fold_left (fun d kv => dict_set d (fst kv) (snd kv)) kvs d in
  (NoDup (dict_keys d) -> NoDup (dict_keys built))
  /\ dict_lookup built k
     = match dict_lookup (rev kvs) k with
       | Some v => Some v
       | None => dict_lookup d k
       end.
Proof.
  revert d. induction kvs as [|[k1 v1] kvs IH]; intros d; cbn zeta.
  - split; [trivial | reflexivity].
  - cbn [fold_left fst snd rev]. destruct (IH (dict_set d k1 v1)) as [Hn Hl].
    split.
    + intros H. now apply Hn, dict_set_NoDup.
    + rewrite Hl, dict_lookup_app, dict_lookup_set. cbn [dict_lookup].
      now destruct (dict_lookup (rev kvs) k), (String.eqb k1 k).
Qed.

(** X12: the mapping that [get_recording] builds from the pairs of
    component code and Seismogram has every code once, and under a code
    the Seismogram of the last pair with that code. *)
Theorem dict_of_pairs_last_wins {V : Type} (kvs : list (string * V)) :
  NoDup (dict_keys (dict_of_pairs kvs))
  /\ forall k, dict_lookup (dict_of_pairs kvs) k = dict_lookup (rev kvs) k.
Proof.
  unfold dict_of_pairs. split.
  - apply (proj1 (fold_dict_set kvs [] "")). constructor.
  - intros k. rewrite (proj2 (fold_dict_set kvs [] k)). cbn [dict_lookup].
    now destruct (dict_lookup (rev kvs) k).
Qed.

(** * Latitudes *)

Section Latitudes.
Import PyNum Checks Syngine Accept.

(** X13: a latitude is tested with [is_lon]: in an accepted request the
    source latitude can be replaced by any number that [is_lon] accepts
    and that fits in a float, and the receiver latitude by any number
    that [is_lon] accepts; [is_lat] plays no part. *)
Theorem latitude_tested_with_is_lon (debug : bool)
    (src_lon src_lat src_depth : pynum) (mt : Moment.MomentTensor)
    (rcv_lon rcv_lat : pynum) (stf duration : option pynum)
    (gmt components : string) (validate : bool) (lat1 lat2 : pynum) :
  accepted debug src_lon src_lat src_depth mt rcv_lon rcv_lat stf duration
    gmt components validate = true ->
  is_lon lat1 = true -> fits lat1 = true -> is_lon lat2 = true ->
  accepted debug src_lon lat1 src_depth mt rcv_lon lat2 stf duration gmt
    components validate = true.
Proof.
  unfold accepted, checks. intros Ha H1 Hf H2.
  do 4 (apply andb_prop in Ha as [Ha ?]).
  destruct (validating debug validate); cbn [negb orb] in *.
  - do 8 (apply andb_prop in Ha as [Ha ?]). rewrite H1, H2, Hf.
    repeat match goal with E : _ = true |- _ => rewrite E; clear E end.
    reflexivity.
  - rewrite Hf.
    repeat match goal with E : _ = true |- _ => rewrite E; clear E end.
    reflexivity.
Qed.

End Latitudes.

(** * The further properties at the sample request *)

Lemma sample_url :
  Syngine.get_recording_url true Sample.src_lon Sample.src_lat
    Sample.src_depth Sample.mt Sample.rcv_lon Sample.rcv_lat None
    (Some (PyNum.PyInt 3)) (Some Sample.duration) "acc" "ZNE" true
  = Ret Sample.url.
Proof. vm_compute. reflexivity. Defined.

Lemma validation_only_filters_witness :
  Syngine.get_recording_url true Sample.src_lon Sample.src_lat
    Sample.src_depth Sample.mt Sample.rcv_lon Sample.rcv_lat None
    (Some (PyNum.PyInt 3)) (Some Sample.duration) "acc" "ZNE" true
  = Ret Sample.url
  /\ Syngine.get_recording_url false Sample.src_lon Sample.src_lat
       Sample.src_depth Sample.mt Sample.rcv_lon Sample.rcv_lat None
       (Some (PyNum.PyInt 3)) (Some Sample.duration) "acc" "ZNE" false
     = Ret Sample.url.
Proof.
  split; [exact sample_url |].
  exact (validation_only_filters true Sample.src_lon Sample.src_lat
           Sample.src_depth Sample.mt Sample.rcv_lon Sample.rcv_lat None
           (Some (PyNum.PyInt 3)) (Some Sample.duration) "acc" "ZNE" true
           Sample.url sample_url false).
Defined.

Lemma url_renders_parameters_witness :
  Accept.accepted true Sample.src_lon Sample.src_lat Sample.src_depth
    Sample.mt Sample.rcv_lon Sample.rcv_lat (Some (PyNum.PyInt 3))
    (Some Sample.duration) "acc" "ZNE" true = true
  /\ exists url,
       Syngine.get_recording_url true Sample.src_lon Sample.src_lat
         Sample.src_depth Sample.mt Sample.rcv_lon Sample.rcv_lat None
         (Some (PyNum.PyInt 3)) (Some Sample.duration) "acc" "ZNE" true
       = Ret url
       /\ Url.query url
          = [("model", "ak135f_2s"); ("sourcelongitude", "4.350000");
             ("sourcelatitude", "50.850000");
             ("sourcedepthinmeters", "10000");
             ("sourcemomenttensor",
              "1.000000e00,2.000000e00,3.000000e00,4.000000e00,6.000000e00,5.000000e00");
             ("sourcewidth", "3"); ("receiverlongitude", "-120.5");
             ("receiverlatitude", "37.5"); ("endtime", "2.5");
             ("units", "acceleration"); ("components", "ZNE");
             ("format", "miniseed")].
Proof.
  split; [exact sample_accepted |].
  destruct (url_renders_parameters true Sample.src_lon Sample.src_lat
              Sample.src_depth Sample.mt Sample.rcv_lon Sample.rcv_lat None
              (Some (PyNum.PyInt 3)) (Some Sample.duration) "acc" "ZNE" true
              sample_accepted)
    as (url & name & Hurl & Hname & _ & Hq).
  exists url. split; [exact Hurl |].
  rewrite (Hq eq_refl eq_refl).
  injection Hname as <-. vm_compute. reflexivity.
Defined.

Lemma model_cut_at_ampersand_witness :
  Accept.accepted true Sample.src_lon Sample.src_lat Sample.src_depth
    Sample.mt Sample.rcv_lon Sample.rcv_lat None None "dis" "ZRT" true = true
  /\ has_char "&" "prem" = false
  /\ exists url,
       Syngine.get_recording_url true Sample.src_lon Sample.src_lat
         Sample.src_depth Sample.mt Sample.rcv_lon Sample.rcv_lat
         (Some "prem&sourcewidth=9") None None "dis" "ZRT" true
       = Ret url
       /\ Url.param "model" url = Some "prem".
Proof.
  assert (Ha : Accept.accepted true Sample.src_lon Sample.src_lat
                 Sample.src_depth Sample.mt Sample.rcv_lon Sample.rcv_lat
                 None None "dis" "ZRT" true = true)
    by (vm_compute; reflexivity).
  split; [exact Ha |]. split; [reflexivity |].
  exact (model_cut_at_ampersand true Sample.src_lon Sample.src_lat
           Sample.src_depth Sample.mt Sample.rcv_lon Sample.rcv_lat
           (Some "prem&sourcewidth=9") None None "dis" "ZRT" true
           "prem" "sourcewidth=9" Ha eq_refl eq_refl).
Defined.

Lemma validated_url_guarantees_witness :
  Accept.validating true true = true
  /\ Syngine.get_recording_url true Sample.src_lon Sample.src_lat
       Sample.src_depth Sample.mt Sample.rcv_lon Sample.rcv_lat None
       (Some (PyNum.PyInt 3)) (Some Sample.duration) "acc" "ZNE" true
     = Ret Sample.url
  /\ Checks.is_lon Sample.src_lat = true
  /\ Checks.is_pos_number Sample.src_depth = true.
Proof.
  split; [reflexivity |]. split; [exact sample_url |].
  destruct (validated_url_guarantees true Sample.src_lon Sample.src_lat
              Sample.src_depth Sample.mt Sample.rcv_lon Sample.rcv_lat None
              (Some (PyNum.PyInt 3)) (Some Sample.duration) "acc" "ZNE" true
              Sample.url eq_refl sample_url)
    as (_ & Hlat & Hdepth & _).
  split; [exact Hlat | exact Hdepth].
Defined.

Lemma plus_kept_outside_tensor_witness :
  Accept.accepted true Sample.src_lon Sample.src_lat
    (PyNum.PyFloat (PyNum.float_of_Z (10 ^ 16))) Sample.mt Sample.rcv_lon
    Sample.rcv_lat None None "dis" "ZRT" true = true
  /\ PyNum.str (PyNum.PyFloat (PyNum.float_of_Z (10 ^ 16))) = "1e+16"
  /\ exists url,
       Syngine.get_recording_url true Sample.src_lon Sample.src_lat
         (PyNum.PyFloat (PyNum.float_of_Z (10 ^ 16))) Sample.mt
         Sample.rcv_lon Sample.rcv_lat None None None "dis" "ZRT" true
       = Ret url
       /\ has_char "+" url = true.
Proof.
  assert (Ha : Accept.accepted true Sample.src_lon Sample.src_lat
                 (PyNum.PyFloat (PyNum.float_of_Z (10 ^ 16))) Sample.mt
                 Sample.rcv_lon Sample.rcv_lat None None "dis" "ZRT" true
               = true)
    by (vm_compute; reflexivity).
  assert (Hs : PyNum.str (PyNum.PyFloat (PyNum.float_of_Z (10 ^ 16)))
               = "1e+16")
    by (vm_compute; reflexivity).
  split; [exact Ha |]. split; [exact Hs |].
  apply (plus_kept_outside_tensor true Sample.src_lon Sample.src_lat
           (PyNum.PyFloat (PyNum.float_of_Z (10 ^ 16))) Sample.mt
           Sample.rcv_lon Sample.rcv_lat None None None "dis" "ZRT" true Ha).
  right. rewrite Hs. reflexivity.
Defined.

Lemma outside_failures_propagate_witness :
  http Sample.unreachable Sample.url = Err (ExternalError "ConnectionError")
  /\ run Sample.unreachable
       (Syngine.get_recording true Units.SI Sample.src_lon Sample.src_lat
          Sample.src_depth Sample.mt Sample.rcv_lon Sample.rcv_lat None
          (Some (PyNum.PyInt 3)) (Some Sample.duration) "acc" "ZNE" true)
     = Err (ExternalError "ConnectionError").
Proof.
  split; [reflexivity |].
  exact (outside_failures_propagate true Units.SI Sample.src_lon
           Sample.src_lat Sample.src_depth Sample.mt Sample.rcv_lon
           Sample.rcv_lat None (Some (PyNum.PyInt 3)) (Some Sample.duration)
           "acc" "ZNE" true Sample.unreachable Sample.url
           (ExternalError "ConnectionError") sample_url (or_introl eq_refl)).
Defined.

Lemma surplus_traces_ignored_witness :
  firstn 3 Sample.stream
  = firstn 3 (Sample.stream ++ [mkTrace (PyNum.lit 1 2) [PyNum.lit 7 0]])%list
  /\ run Sample.answering
       (Syngine.get_recording true Units.SI Sample.src_lon Sample.src_lat
          Sample.src_depth Sample.mt Sample.rcv_lon Sample.rcv_lat None
          (Some (PyNum.PyInt 3)) (Some Sample.duration) "acc" "ZNE" true)
     = run Sample.answering_more
         (Syngine.get_recording true Units.SI Sample.src_lon Sample.src_lat
            Sample.src_depth Sample.mt Sample.rcv_lon Sample.rcv_lat None
            (Some (PyNum.PyInt 3)) (Some Sample.duration) "acc" "ZNE" true).
Proof.
  split; [reflexivity |].
  exact (surplus_traces_ignored true Units.SI Sample.src_lon Sample.src_lat
           Sample.src_depth Sample.mt Sample.rcv_lon Sample.rcv_lat None
           (Some (PyNum.PyInt 3)) (Some Sample.duration) "acc" "ZNE" true
           Sample.answering Sample.answering_more Sample.url [] []
           Sample.stream
           (Sample.stream ++ [mkTrace (PyNum.lit 1 2) [PyNum.lit 7 0]])%list
           sample_url eq_refl eq_refl eq_refl eq_refl eq_refl).
Defined.

Lemma latitude_tested_with_is_lon_witness :
  Checks.is_lon (PyNum.PyInt 100) = true
  /\ Checks.is_lat (PyNum.PyInt 100) = false
  /\ Accept.accepted true Sample.src_lon (PyNum.PyInt 100) Sample.src_depth
       Sample.mt Sample.rcv_lon (PyNum.PyInt (-120)) (Some (PyNum.PyInt 3))
       (Some Sample.duration) "acc" "ZNE" true = true.
Proof.
  split; [reflexivity |]. split; [reflexivity |].
  exact (latitude_tested_with_is_lon true Sample.src_lon Sample.src_lat
           Sample.src_depth Sample.mt Sample.rcv_lon Sample.rcv_lat
           (Some (PyNum.PyInt 3)) (Some Sample.duration) "acc" "ZNE" true
           (PyNum.PyInt 100) (PyNum.PyInt (-120)) sample_accepted
           eq_refl eq_refl eq_refl).
Defined.

(** * Calls with the same arguments *)






Section Purity.

Variable debug : bool.


End Purity.


